(** * Consistently Interactive: the observed metric of
      lighthouse-core/gather/computed/metrics/consistently-interactive.js

    A shallow embedding of the computed artifact and the properties of its
    quiet-period search.

    Numbers.  The functions are embedded twice.

    - Over exact rationals [Q]: the divisions and multiplications by 1000
      that convert between microseconds and milliseconds are exact, and
      comparisons are the rational ones.  NaN and the infinities are not
      values of this model; the one place where the source can produce NaN
      from well-typed input, [undefined / 1000] for a missing timestamp, is
      modelled by [option Q].  The properties proved here are stated with
      the operations of the code itself, or rest on the order of numbers
      and on the monotonicity of the operations, which rounding keeps.

    - Over IEEE 754 binary64 ([Module Double], on the kernel's primitive
      floats): JavaScript numbers as they are, each operation rounded to
      nearest.  This embedding evaluates the code where rounding decides
      the outcome, and carries the properties that follow from the tests
      the code performs. *)

From Stdlib Require Import QArith Qminmax Lqa.
From Stdlib Require Import PrimFloat.
From Stdlib Require Import List Bool Arith Lia Sorted.
From Equations Require Import Equations.
Import ListNotations.

Open Scope Q_scope.

(* ===================================================================== *)
(** ** JavaScript comparisons on numbers *)
(* ===================================================================== *)

(** [a >= b] *)
Definition Qgeb (a b : Q) : bool := Qle_bool b a.
(** [a > b] *)
Definition Qgtb (a b : Q) : bool := negb (Qle_bool a b).

Infix ">=?" := Qgeb (at level 70, no associativity) : Q_scope.
Infix ">?" := Qgtb (at level 70, no associativity) : Q_scope.

(** [Math.max(a, b, c)] *)
Definition Math_max (a b c : Q) : Q := Qmax (Qmax a b) c.

(* ===================================================================== *)
(** ** Data model *)
(* ===================================================================== *)

(** [@typedef TimePeriod]: [{start: number, end: number}]. *)
Record TimePeriod : Type := mkPeriod { start : Q; end_ : Q }.

(** The named instants of [traceOfTab.timestamps], in microseconds.  The
    two instants that [computeObservedMetric] tests for presence are
    optional: [None] is a missing property ([undefined]). *)
Record Timestamps : Type := mkTimestamps {
  navigationStart : Q;
  firstMeaningfulPaint : option Q;
  domContentLoaded : option Q;
  traceEnd : Q
}.

(** [traceOfTab]: the timestamps and the main-thread events, whose shape
    only the tracing processor knows. *)
Record TraceOfTab (Events : Type) : Type := mkTraceOfTab {
  timestamps : Timestamps;
  mainThreadEvents : Events
}.
Arguments mkTraceOfTab {Events} _ _.
Arguments timestamps {Events} _.
Arguments mainThreadEvents {Events} _.

(** What [TracingProcessor.getMainThreadTopLevelEvents] yields. *)
Record TopLevelEvent : Type := mkEvent {
  ev_start : Q;
  ev_end : Q;
  duration : Q
}.

(** A top-level event is handed on as a [TimePeriod]: the same object, of
    which only [start] and [end] are read. *)
Definition asTimePeriod (e : TopLevelEvent) : TimePeriod :=
  mkPeriod (ev_start e) (ev_end e).

(** [LHError.errors], the four kinds this file throws. *)
Inductive LHErrorKind : Type :=
| NO_FMP
| NO_DCL
| NO_TTI_NETWORK_IDLE_PERIOD
| NO_TTI_CPU_IDLE_PERIOD.

(** What a [throw] carries: an [LHError], or the [TypeError] of reading a
    property of [undefined]. *)
Inductive exn : Type :=
| LHError (kind : LHErrorKind)
| TypeError.

(** A computation returns or throws. *)
Inductive result (A : Type) : Type :=
| Ok (a : A)
| Throw (e : exn).
Arguments Ok {A} _.
Arguments Throw {A} _.

Definition bind {A B : Type} (r : result A) (k : A -> result B) : result B :=
  match r with
  | Ok a => k a
  | Throw e => Throw e
  end.

Notation "x <- r ;; k" := (bind r (fun x => k))
  (at level 61, r at next level, right associativity).

(** [{cpuQuietPeriod, networkQuietPeriod, cpuQuietPeriods, networkQuietPeriods}] *)
Record QuietPeriodInfo : Type := mkInfo {
  cpuQuietPeriod : TimePeriod;
  networkQuietPeriod : TimePeriod;
  cpuQuietPeriods : list TimePeriod;
  networkQuietPeriods : list TimePeriod
}.

(** [{timing, timestamp}] *)
Record Metric : Type := mkMetric { timing : Q; timestamp : Q }.

Definition REQUIRED_QUIET_WINDOW : Q := 5000.
Definition ALLOWED_CONCURRENT_REQUESTS : Q := 2.

(* ===================================================================== *)
(** ** [_findCPUQuietPeriods] *)
(* ===================================================================== *)

Section CPUQuietPeriods.

Variable longTasks : list TimePeriod.
Variables navStartTsInMs traceEndTsInMs : Q.

(** [quietPeriods.push(p)] *)
Definition push (quietPeriods : list TimePeriod) (p : TimePeriod) :=
  quietPeriods ++ [p].

(** The callback of [longTasks.forEach((task, index) => ...)], threading
    the array [quietPeriods] it pushes to.  [longTasks[index + 1]] is
    [undefined] out of range, and reading its [start] throws. *)
Definition forEach_callback (quietPeriods : list TimePeriod)
    (task : TimePeriod) (index : nat) : result (list TimePeriod) :=
  let quietPeriods :=
    if Nat.eqb index 0
    then push quietPeriods (mkPeriod 0 (start task + navStartTsInMs))
    else quietPeriods in
  if Nat.eqb index (length longTasks - 1)
  then Ok (push quietPeriods (mkPeriod (end_ task + navStartTsInMs) traceEndTsInMs))
  else
    match nth_error longTasks (index + 1) with
    | Some next =>
        Ok (push quietPeriods
              (mkPeriod (end_ task + navStartTsInMs) (start next + navStartTsInMs)))
    | None => Throw TypeError
    end.

(** [forEach] over the elements from position [index] on. *)
Fixpoint forEach_from (tasks : list TimePeriod) (index : nat)
    (quietPeriods : list TimePeriod) : result (list TimePeriod) :=
  match tasks with
  | [] => Ok quietPeriods
  | task :: tasks' =>
      quietPeriods' <- forEach_callback quietPeriods task index ;;
      forEach_from tasks' (S index) quietPeriods'
  end.

End CPUQuietPeriods.

Definition _findCPUQuietPeriods {Events : Type}
    (longTasks : list TimePeriod) (traceOfTab : TraceOfTab Events)
  : result (list TimePeriod) :=
  let navStartTsInMs := navigationStart (timestamps traceOfTab) / 1000 in
  let traceEndTsInMs := traceEnd (timestamps traceOfTab) / 1000 in
  if Nat.eqb (length longTasks) 0
  then Ok [mkPeriod 0 traceEndTsInMs]
  else forEach_from longTasks navStartTsInMs traceEndTsInMs longTasks 0%nat [].

(** The list the deriver is meant to build, written by recursion on the
    tasks: the period before the first task, the gap after each task up to
    the next one, and the period from the last task to the end of the
    trace.  [off] is what is added to every task boundary. *)
Fixpoint gaps_after (off traceEndTsInMs : Q) (task : TimePeriod)
    (rest : list TimePeriod) : list TimePeriod :=
  match rest with
  | [] => [mkPeriod (end_ task + off) traceEndTsInMs]
  | next :: rest' =>
      mkPeriod (end_ task + off) (start next + off)
        :: gaps_after off traceEndTsInMs next rest'
  end.

Definition cpu_gaps (off traceEndTsInMs : Q) (longTasks : list TimePeriod)
  : list TimePeriod :=
  match longTasks with
  | [] => [mkPeriod 0 traceEndTsInMs]
  | first :: rest =>
      mkPeriod 0 (start first + off) :: gaps_after off traceEndTsInMs first rest
  end.

(* ===================================================================== *)
(** ** [findOverlappingQuietPeriods] *)
(* ===================================================================== *)

(** [isLongEnoughQuietPeriod], closed over [FMPTsInMs].  [FMPTsInMs] is
    [None] when [firstMeaningfulPaint] is missing: [undefined / 1000] is
    NaN, and every comparison with NaN is false. *)
Definition isLongEnoughQuietPeriod (FMPTsInMs : option Q) (period : TimePeriod)
  : bool :=
  match FMPTsInMs with
  | Some FMPTsInMs =>
      (end_ period >? FMPTsInMs + REQUIRED_QUIET_WINDOW) &&
      (end_ period - start period >=? REQUIRED_QUIET_WINDOW)
  | None => false
  end.

(** [FMPTsInMs]: [traceOfTab.timestamps.firstMeaningfulPaint / 1000]. *)
Definition FMPTsInMs_of {Events : Type} (traceOfTab : TraceOfTab Events) : option Q :=
  option_map (fun fmp => fmp / 1000) (firstMeaningfulPaint (timestamps traceOfTab)).

(** [queue.shift()]: the removed first element, [undefined] for an empty
    array, and the array that is left. *)
Definition shift (queue : list TimePeriod) : option TimePeriod * list TimePeriod :=
  match queue with
  | [] => (None, [])
  | p :: queue' => (Some p, queue')
  end.

(** The variables the [while] loop reads and assigns. *)
Record LoopState : Type := mkState {
  cpuCandidate : option TimePeriod;
  cpuQueue : list TimePeriod;
  networkCandidate : option TimePeriod;
  networkQueue : list TimePeriod
}.

(** Each iteration that does not return drops a candidate. *)
Definition remaining (c : option TimePeriod) (queue : list TimePeriod) : nat :=
  match c with
  | Some _ => S (length queue)
  | None => length queue
  end.

Definition iterations_left (st : LoopState) : nat :=
  (remaining (cpuCandidate st) (cpuQueue st) +
   remaining (networkCandidate st) (networkQueue st))%nat.

(** [while (cpuCandidate && networkCandidate) { ... }]: [inl] is the pair
    of a [return] from inside the loop, [inr] the state in which the loop
    condition fails. *)
Equations? while_loop (st : LoopState)
  : (TimePeriod * TimePeriod) + LoopState by wf (iterations_left st) lt :=
while_loop (mkState (Some cpu) cpuQ (Some net) netQ)
  with (start cpu >=? start net) => {
  | true with (end_ net >=? start cpu + REQUIRED_QUIET_WINDOW) => {
    | true := inl (cpu, net);
    | false := while_loop (mkState (Some cpu) cpuQ (fst (shift netQ)) (snd (shift netQ))) };
  | false with (end_ cpu >=? start net + REQUIRED_QUIET_WINDOW) => {
    | true := inl (cpu, net);
    | false := while_loop (mkState (fst (shift cpuQ)) (snd (shift cpuQ)) (Some net) netQ) } };
while_loop st := inr st.
Proof.
  - destruct netQ; unfold iterations_left; simpl; lia.
  - destruct cpuQ; unfold iterations_left; simpl; lia.
Qed.

(** Lines 93 to 131 of the source: the copies of the two filtered lists,
    the first candidates, the loop and the [throw] after it. *)
Definition findOverlappingQuietPeriods_search
    (cpuQuietPeriods networkQuietPeriods : list TimePeriod)
  : result QuietPeriodInfo :=
  let cpuQueue := cpuQuietPeriods in
  let networkQueue := networkQuietPeriods in
  let first_cpu := shift cpuQueue in
  let first_network := shift networkQueue in
  match while_loop (mkState (fst first_cpu) (snd first_cpu)
                            (fst first_network) (snd first_network)) with
  | inl (cpu, net) =>
      Ok (mkInfo cpu net cpuQuietPeriods networkQuietPeriods)
  | inr st =>
      Throw (LHError (match cpuCandidate st with
                      | Some _ => NO_TTI_NETWORK_IDLE_PERIOD
                      | None => NO_TTI_CPU_IDLE_PERIOD
                      end))
  end.

Section Artifact.

(** The collaborators that live in other files of the repository:
    [NetworkRecorder.findNetworkQuietPeriods(records, allowed, endTime)]
    and [TracingProcessor.getMainThreadTopLevelEvents(traceOfTab)]. *)
Variables NetworkRequest Events : Type.
Variable NetworkRecorder_findNetworkQuietPeriods :
  list NetworkRequest -> Q -> Q -> list TimePeriod.
Variable TracingProcessor_getMainThreadTopLevelEvents :
  TraceOfTab Events -> list TopLevelEvent.

Definition _findNetworkQuietPeriods (networkRecords : list NetworkRequest)
    (traceOfTab : TraceOfTab Events) : list TimePeriod :=
  let traceEndTsInMs := traceEnd (timestamps traceOfTab) / 1000 in
  NetworkRecorder_findNetworkQuietPeriods networkRecords
    ALLOWED_CONCURRENT_REQUESTS traceEndTsInMs.

Definition findOverlappingQuietPeriods (longTasks : list TimePeriod)
    (networkRecords : list NetworkRequest) (traceOfTab : TraceOfTab Events)
  : result QuietPeriodInfo :=
  let FMPTsInMs := FMPTsInMs_of traceOfTab in
  let networkQuietPeriods :=
    filter (isLongEnoughQuietPeriod FMPTsInMs)
           (_findNetworkQuietPeriods networkRecords traceOfTab) in
  allCpuQuietPeriods <- _findCPUQuietPeriods longTasks traceOfTab ;;
  let cpuQuietPeriods :=
    filter (isLongEnoughQuietPeriod FMPTsInMs) allCpuQuietPeriods in
  findOverlappingQuietPeriods_search cpuQuietPeriods networkQuietPeriods.

(** [data]: [{traceOfTab, networkRecords}]. *)
Record MetricComputationData : Type := mkData {
  traceOfTab : TraceOfTab Events;
  networkRecords : list NetworkRequest
}.

(** [computeObservedMetric(data, artifacts)].  [!x] holds of a missing
    timestamp and of 0. *)
Definition computeObservedMetric (data : MetricComputationData) : result Metric :=
  let traceOfTab := traceOfTab data in
  let networkRecords := networkRecords data in
  match firstMeaningfulPaint (timestamps traceOfTab) with
  | None => Throw (LHError NO_FMP)
  | Some firstMeaningfulPaint =>
  if Qeq_bool firstMeaningfulPaint 0 then Throw (LHError NO_FMP) else
  match domContentLoaded (timestamps traceOfTab) with
  | None => Throw (LHError NO_DCL)
  | Some domContentLoaded =>
  if Qeq_bool domContentLoaded 0 then Throw (LHError NO_DCL) else
  let longTasks :=
    filter (fun event => duration event >=? 50)
           (TracingProcessor_getMainThreadTopLevelEvents traceOfTab) in
  quietPeriodInfo <-
    findOverlappingQuietPeriods (map asTimePeriod longTasks) networkRecords traceOfTab ;;
  let cpuQuietPeriod := cpuQuietPeriod quietPeriodInfo in
  let timestamp :=
    Math_max (start cpuQuietPeriod)
             (firstMeaningfulPaint / 1000)
             (domContentLoaded / 1000) * 1000 in
  let timing := (timestamp - navigationStart (timestamps traceOfTab)) / 1000 in
  Ok (mkMetric timing timestamp)
  end
  end.

End Artifact.

Arguments mkData {NetworkRequest Events} _ _.
Arguments traceOfTab {NetworkRequest Events} _.
Arguments networkRecords {NetworkRequest Events} _.
Arguments _findNetworkQuietPeriods {NetworkRequest Events} _ _ _.
Arguments findOverlappingQuietPeriods {NetworkRequest Events} _ _ _ _.
Arguments computeObservedMetric {NetworkRequest Events} _ _ _.

(* ===================================================================== *)
(** ** What the specification says, in its own words *)
(* ===================================================================== *)

(** Two periods with the same bounds as numbers. *)
Definition same_period (p q : TimePeriod) : Prop :=
  start p == start q /\ end_ p == end_ q.

(** Section 4.1 of the specification: [[0, firstTask.start]], then
    [[task_i.end, task_(i+1).start]] for each consecutive pair, then
    [[lastTask.end, traceEnd]]; [[0, traceEnd]] for no task at all. *)
Fixpoint spec_gaps_after (traceEnd : Q) (task : TimePeriod)
    (rest : list TimePeriod) : list TimePeriod :=
  match rest with
  | [] => [mkPeriod (end_ task) traceEnd]
  | next :: rest' =>
      mkPeriod (end_ task) (start next) :: spec_gaps_after traceEnd next rest'
  end.

Definition spec_cpu_quiet_periods (traceEnd : Q) (longTasks : list TimePeriod)
  : list TimePeriod :=
  match longTasks with
  | [] => [mkPeriod 0 traceEnd]
  | first :: rest => mkPeriod 0 (start first) :: spec_gaps_after traceEnd first rest
  end.

(** Ascending by [start]. *)
Definition ascending (l : list TimePeriod) : Prop :=
  Sorted (fun p q => start p <= start q) l.

(** No two periods overlap: an earlier one ends before a later one starts
    (they may touch). *)
Definition non_overlapping (l : list TimePeriod) : Prop :=
  StronglySorted (fun p q => end_ p <= start q) l.

(** Each period ends where the next one starts, or before. *)
Definition consecutive (l : list TimePeriod) : Prop :=
  Sorted (fun p q => end_ p <= start q) l.

Definition well_formed (p : TimePeriod) : Prop := start p <= end_ p.

(** The instant [x] lies in one of the periods of [l], each moved by [off]. *)
Definition covered (off : Q) (l : list TimePeriod) (x : Q) : Prop :=
  exists p, In p l /\ start p + off <= x /\ x <= end_ p + off.

(** A long task, moved by [off], lies within the trace [[0, traceEnd]]. *)
Definition within_trace (off traceEnd : Q) (t : TimePeriod) : Prop :=
  0 <= start t + off /\ end_ t + off <= traceEnd.

(** Section 4.4: the pair [(cpu, net)] qualifies. *)
Definition qualifies (cpu net : TimePeriod) : Prop :=
  (start net <= start cpu /\ start cpu + REQUIRED_QUIET_WINDOW <= end_ net) \/
  (start cpu < start net /\ start net + REQUIRED_QUIET_WINDOW <= end_ cpu).

(** [(cpu, net)] is the earliest qualifying pair of the two lists: it
    qualifies, and no period that comes before [cpu] in the CPU list, or
    before [net] in the network list, is part of a qualifying pair. *)
Definition earliest_pair (cpus nets : list TimePeriod) (cpu net : TimePeriod)
  : Prop :=
  qualifies cpu net /\
  exists l1 l2 m1 m2,
    cpus = l1 ++ cpu :: l2 /\ nets = m1 ++ net :: m2 /\
    (forall x y, In x l1 -> In y nets -> ~ qualifies x y) /\
    (forall x y, In x cpus -> In y m1 -> ~ qualifies x y).

(** [!x] for an optional timestamp: missing, or zero. *)
Definition missing_or_zero (x : option Q) : Prop :=
  x = None \/ exists q, x = Some q /\ q == 0.

(** The periods the loop has not dropped yet. *)
Definition pending (candidate : option TimePeriod) (queue : list TimePeriod)
  : list TimePeriod :=
  match candidate with
  | Some p => p :: queue
  | None => []
  end.

(* ===================================================================== *)
(** ** Stand-ins for the collaborators, and sample inputs *)
(* ===================================================================== *)

(** A network recorder whose records already are the quiet periods. *)
Definition recorder_stub (records : list TimePeriod) (allowed endTime : Q)
  : list TimePeriod := records.

(** A tracing processor whose trace already holds the top-level events. *)
Definition processor_stub (traceOfTab : TraceOfTab (list TopLevelEvent))
  : list TopLevelEvent := mainThreadEvents traceOfTab.

(** Navigation starts one second into the trace clock; one long task from
    5000 ms to 5100 ms after it; the trace ends at 30 s. *)
Definition sample_timestamps : Timestamps :=
  mkTimestamps 1000000 (Some 3000000) (Some 4000000) 30000000.

Definition sample_trace : TraceOfTab (list TopLevelEvent) :=
  mkTraceOfTab sample_timestamps [mkEvent 5000 5100 100].

Definition sample_data : MetricComputationData TimePeriod (list TopLevelEvent) :=
  mkData sample_trace [mkPeriod 0 30000].



(** Neither paint recorded. *)
Definition unpainted_data : MetricComputationData TimePeriod (list TopLevelEvent) :=
  mkData (mkTraceOfTab (mkTimestamps 0 None None 30000000) []) [mkPeriod 0 30000].

(** The first meaningful paint recorded, the DOM content loaded event not. *)
Definition unloaded_data : MetricComputationData TimePeriod (list TopLevelEvent) :=
  mkData (mkTraceOfTab (mkTimestamps 0 (Some 3000000) None 30000000) [])
         [mkPeriod 0 30000].

(** A trace of 20 s whose one long task runs until 30 s. *)
Definition overrun_trace : TraceOfTab (list TopLevelEvent) :=
  mkTraceOfTab (mkTimestamps 0 (Some 3000000) (Some 4000000) 20000000) [].

(** A trace of 10 ms: too short for any quiet window. *)
Definition short_trace : TraceOfTab (list TopLevelEvent) :=
  mkTraceOfTab (mkTimestamps 0 (Some 2000000) (Some 2500000) 10000) [].

(* ===================================================================== *)
(** ** The same functions over binary64 *)
(* ===================================================================== *)

Module Double.

(** [a >= b] and [a > b]: false as soon as an operand is NaN. *)
Definition geb (a b : float) : bool := PrimFloat.leb b a.
Definition gtb (a b : float) : bool := PrimFloat.ltb b a.

(** [Math.max(a, b)]: NaN if an argument is NaN, and [+0] above [-0]. *)
Definition Math_max2 (a b : float) : float :=
  if PrimFloat.is_nan a || PrimFloat.is_nan b then PrimFloat.nan
  else if PrimFloat.ltb a b then b
  else if PrimFloat.ltb b a then a
  else if PrimFloat.get_sign a then b else a.

(** [Math.max(a, b, c)] *)
Definition Math_max (a b c : float) : float := Math_max2 (Math_max2 a b) c.

(** [!x] for a number: 0, -0 and NaN. *)
Definition falsy (x : float) : bool :=
  PrimFloat.is_nan x || PrimFloat.eqb x 0%float.

Record TimePeriod : Type := mkPeriod { start : float; end_ : float }.

Record Timestamps : Type := mkTimestamps {
  navigationStart : float;
  firstMeaningfulPaint : option float;
  domContentLoaded : option float;
  traceEnd : float
}.

Record TraceOfTab (Events : Type) : Type := mkTraceOfTab {
  timestamps : Timestamps;
  mainThreadEvents : Events
}.
Arguments mkTraceOfTab {Events} _ _.
Arguments timestamps {Events} _.
Arguments mainThreadEvents {Events} _.

Record TopLevelEvent : Type := mkEvent {
  ev_start : float;
  ev_end : float;
  duration : float
}.

Definition asTimePeriod (e : TopLevelEvent) : TimePeriod :=
  mkPeriod (ev_start e) (ev_end e).

Record QuietPeriodInfo : Type := mkInfo {
  cpuQuietPeriod : TimePeriod;
  networkQuietPeriod : TimePeriod;
  cpuQuietPeriods : list TimePeriod;
  networkQuietPeriods : list TimePeriod
}.

Record Metric : Type := mkMetric { timing : float; timestamp : float }.

Definition REQUIRED_QUIET_WINDOW : float := 5000%float.
Definition ALLOWED_CONCURRENT_REQUESTS : float := 2%float.

Section CPUQuietPeriods.

Variable longTasks : list TimePeriod.
Variables navStartTsInMs traceEndTsInMs : float.

Definition push (quietPeriods : list TimePeriod) (p : TimePeriod) :=
  quietPeriods ++ [p].

Definition forEach_callback (quietPeriods : list TimePeriod)
    (task : TimePeriod) (index : nat) : result (list TimePeriod) :=
  let quietPeriods :=
    if Nat.eqb index 0
    then push quietPeriods (mkPeriod 0%float (start task + navStartTsInMs)%float)
    else quietPeriods in
  if Nat.eqb index (length longTasks - 1)
  then Ok (push quietPeriods
             (mkPeriod (end_ task + navStartTsInMs)%float traceEndTsInMs))
  else
    match nth_error longTasks (index + 1) with
    | Some next =>
        Ok (push quietPeriods
              (mkPeriod (end_ task + navStartTsInMs)%float
                        (start next + navStartTsInMs)%float))
    | None => Throw TypeError
    end.

Fixpoint forEach_from (tasks : list TimePeriod) (index : nat)
    (quietPeriods : list TimePeriod) : result (list TimePeriod) :=
  match tasks with
  | [] => Ok quietPeriods
  | task :: tasks' =>
      quietPeriods' <- forEach_callback quietPeriods task index ;;
      forEach_from tasks' (S index) quietPeriods'
  end.

End CPUQuietPeriods.

Definition _findCPUQuietPeriods {Events : Type}
    (longTasks : list TimePeriod) (traceOfTab : TraceOfTab Events)
  : result (list TimePeriod) :=
  let navStartTsInMs := (navigationStart (timestamps traceOfTab) / 1000)%float in
  let traceEndTsInMs := (traceEnd (timestamps traceOfTab) / 1000)%float in
  if Nat.eqb (length longTasks) 0
  then Ok [mkPeriod 0%float traceEndTsInMs]
  else forEach_from longTasks navStartTsInMs traceEndTsInMs longTasks 0%nat [].

(** [isLongEnoughQuietPeriod], closed over [FMPTsInMs]. *)
Definition isLongEnoughQuietPeriod (FMPTsInMs : float) (period : TimePeriod)
  : bool :=
  gtb (end_ period) (FMPTsInMs + REQUIRED_QUIET_WINDOW)%float &&
  geb (end_ period - start period)%float REQUIRED_QUIET_WINDOW.

(** [FMPTsInMs]: [undefined / 1000] is NaN. *)
Definition FMPTsInMs_of {Events : Type} (traceOfTab : TraceOfTab Events) : float :=
  match firstMeaningfulPaint (timestamps traceOfTab) with
  | Some fmp => (fmp / 1000)%float
  | None => PrimFloat.nan
  end.

Definition shift (queue : list TimePeriod) : option TimePeriod * list TimePeriod :=
  match queue with
  | [] => (None, [])
  | p :: queue' => (Some p, queue')
  end.

Record LoopState : Type := mkState {
  cpuCandidate : option TimePeriod;
  cpuQueue : list TimePeriod;
  networkCandidate : option TimePeriod;
  networkQueue : list TimePeriod
}.

Definition remaining (c : option TimePeriod) (queue : list TimePeriod) : nat :=
  match c with
  | Some _ => S (length queue)
  | None => length queue
  end.

Definition iterations_left (st : LoopState) : nat :=
  (remaining (cpuCandidate st) (cpuQueue st) +
   remaining (networkCandidate st) (networkQueue st))%nat.

Equations? while_loop (st : LoopState)
  : (TimePeriod * TimePeriod) + LoopState by wf (iterations_left st) lt :=
while_loop (mkState (Some cpu) cpuQ (Some net) netQ)
  with geb (start cpu) (start net) => {
  | true with geb (end_ net) (start cpu + REQUIRED_QUIET_WINDOW)%float => {
    | true := inl (cpu, net);
    | false := while_loop (mkState (Some cpu) cpuQ (fst (shift netQ)) (snd (shift netQ))) };
  | false with geb (end_ cpu) (start net + REQUIRED_QUIET_WINDOW)%float => {
    | true := inl (cpu, net);
    | false := while_loop (mkState (fst (shift cpuQ)) (snd (shift cpuQ)) (Some net) netQ) } };
while_loop st := inr st.
Proof.
  - destruct netQ; unfold iterations_left; simpl; lia.
  - destruct cpuQ; unfold iterations_left; simpl; lia.
Qed.

Definition findOverlappingQuietPeriods_search
    (cpuQuietPeriods networkQuietPeriods : list TimePeriod)
  : result QuietPeriodInfo :=
  let cpuQueue := cpuQuietPeriods in
  let networkQueue := networkQuietPeriods in
  let first_cpu := shift cpuQueue in
  let first_network := shift networkQueue in
  match while_loop (mkState (fst first_cpu) (snd first_cpu)
                            (fst first_network) (snd first_network)) with
  | inl (cpu, net) =>
      Ok (mkInfo cpu net cpuQuietPeriods networkQuietPeriods)
  | inr st =>
      Throw (LHError (match cpuCandidate st with
                      | Some _ => NO_TTI_NETWORK_IDLE_PERIOD
                      | None => NO_TTI_CPU_IDLE_PERIOD
                      end))
  end.

Section Artifact.

Variables NetworkRequest Events : Type.
Variable NetworkRecorder_findNetworkQuietPeriods :
  list NetworkRequest -> float -> float -> list TimePeriod.
Variable TracingProcessor_getMainThreadTopLevelEvents :
  TraceOfTab Events -> list TopLevelEvent.

Definition _findNetworkQuietPeriods (networkRecords : list NetworkRequest)
    (traceOfTab : TraceOfTab Events) : list TimePeriod :=
  let traceEndTsInMs := (traceEnd (timestamps traceOfTab) / 1000)%float in
  NetworkRecorder_findNetworkQuietPeriods networkRecords
    ALLOWED_CONCURRENT_REQUESTS traceEndTsInMs.

Definition findOverlappingQuietPeriods (longTasks : list TimePeriod)
    (networkRecords : list NetworkRequest) (traceOfTab : TraceOfTab Events)
  : result QuietPeriodInfo :=
  let FMPTsInMs := FMPTsInMs_of traceOfTab in
  let networkQuietPeriods :=
    filter (isLongEnoughQuietPeriod FMPTsInMs)
           (_findNetworkQuietPeriods networkRecords traceOfTab) in
  allCpuQuietPeriods <- _findCPUQuietPeriods longTasks traceOfTab ;;
  let cpuQuietPeriods :=
    filter (isLongEnoughQuietPeriod FMPTsInMs) allCpuQuietPeriods in
  findOverlappingQuietPeriods_search cpuQuietPeriods networkQuietPeriods.

Record MetricComputationData : Type := mkData {
  traceOfTab : TraceOfTab Events;
  networkRecords : list NetworkRequest
}.

Definition computeObservedMetric (data : MetricComputationData) : result Metric :=
  let traceOfTab := traceOfTab data in
  let networkRecords := networkRecords data in
  match firstMeaningfulPaint (timestamps traceOfTab) with
  | None => Throw (LHError NO_FMP)
  | Some firstMeaningfulPaint =>
  if falsy firstMeaningfulPaint then Throw (LHError NO_FMP) else
  match domContentLoaded (timestamps traceOfTab) with
  | None => Throw (LHError NO_DCL)
  | Some domContentLoaded =>
  if falsy domContentLoaded then Throw (LHError NO_DCL) else
  let longTasks :=
    filter (fun event => geb (duration event) 50%float)
           (TracingProcessor_getMainThreadTopLevelEvents traceOfTab) in
  quietPeriodInfo <-
    findOverlappingQuietPeriods (map asTimePeriod longTasks) networkRecords traceOfTab ;;
  let cpuQuietPeriod := cpuQuietPeriod quietPeriodInfo in
  let timestamp :=
    (Math_max (start cpuQuietPeriod)
              (firstMeaningfulPaint / 1000)
              (domContentLoaded / 1000) * 1000)%float in
  let timing :=
    ((timestamp - navigationStart (timestamps traceOfTab)) / 1000)%float in
  Ok (mkMetric timing timestamp)
  end
  end.

End Artifact.

Arguments mkData {NetworkRequest Events} _ _.
Arguments traceOfTab {NetworkRequest Events} _.
Arguments networkRecords {NetworkRequest Events} _.
Arguments _findNetworkQuietPeriods {NetworkRequest Events} _ _ _.
Arguments findOverlappingQuietPeriods {NetworkRequest Events} _ _ _ _.
Arguments computeObservedMetric {NetworkRequest Events} _ _ _.

(** The periods the loop has not dropped yet. *)
Definition pending (candidate : option TimePeriod) (queue : list TimePeriod)
  : list TimePeriod :=
  match candidate with
  | Some p => p :: queue
  | None => []
  end.

(** The test that lets the loop return [(cpu, net)]. *)
Definition loop_test (cpu net : TimePeriod) : bool :=
  if geb (start cpu) (start net)
  then geb (end_ net) (start cpu + REQUIRED_QUIET_WINDOW)%float
  else geb (end_ cpu) (start net + REQUIRED_QUIET_WINDOW)%float.

(** The later of the two starts, [max(cpu.start, net.start)]. *)
Definition later_start (cpu net : TimePeriod) : float :=
  Math_max2 (start cpu) (start net).

(** Stand-ins for the collaborators, as over [Q]. *)
Definition recorder_stub (records : list TimePeriod) (allowed endTime : float)
  : list TimePeriod := records.

Definition processor_stub (traceOfTab : TraceOfTab (list TopLevelEvent))
  : list TopLevelEvent := mainThreadEvents traceOfTab.

(** Navigation starts at 1000003 us; two long tasks, [[1000, 1100]] and
    [[6100, 6200]], exactly 5000 ms apart; the network quiet throughout. *)
Definition rounded_gap_trace : TraceOfTab (list TopLevelEvent) :=
  mkTraceOfTab
    (mkTimestamps 1000003%float (Some 1500000%float) (Some 1600000%float)
                  30000000%float)
    [mkEvent 1000%float 1100%float 100%float;
     mkEvent 6100%float 6200%float 100%float].

Definition rounded_gap_tasks : list TimePeriod :=
  [mkPeriod 1000%float 1100%float; mkPeriod 6100%float 6200%float].


End Double.

(* ===================================================================== *)
(** * Properties *)
(* ===================================================================== *)

(** ** Comparisons *)

Lemma Qgeb_ge (a b : Q) : (a >=? b) = true <-> b <= a.
Proof. unfold Qgeb. apply Qle_bool_iff. Qed.

Lemma Qgeb_lt (a b : Q) : (a >=? b) = false <-> a < b.
Proof.
  unfold Qgeb. split; intro H.
  - apply Qnot_le_lt. intro Hle. apply Qle_bool_iff in Hle. congruence.
  - destruct (Qle_bool b a) eqn:E; [|reflexivity].
    apply Qle_bool_iff in E. lra.
Qed.

Lemma Qgtb_gt (a b : Q) : (a >? b) = true <-> b < a.
Proof.
  unfold Qgtb. rewrite negb_true_iff. split; intro H.
  - apply Qnot_le_lt. intro Hle. apply Qle_bool_iff in Hle. congruence.
  - destruct (Qle_bool a b) eqn:E; [|reflexivity].
    apply Qle_bool_iff in E. lra.
Qed.



(** ** The CPU quiet-period deriver *)

Section ForEach.

Variable longTasks : list TimePeriod.
Variables nav T : Q.

Lemma forEach_from_gaps (rest : list TimePeriod) :
  forall (task : TimePeriod) (done quietPeriods : list TimePeriod),
    longTasks = done ++ task :: rest ->
    forEach_from longTasks nav T (task :: rest) (length done) quietPeriods =
    Ok ((match done with
         | [] => push quietPeriods (mkPeriod 0 (start task + nav))
         | _ :: _ => quietPeriods
         end) ++ gaps_after nav T task rest).
Proof.
  induction rest as [|next rest IH]; intros task done qp E.
  - cbn [forEach_from bind]. unfold forEach_callback.
    assert (Hlast : Nat.eqb (length done) (length longTasks - 1) = true).
    { apply Nat.eqb_eq. rewrite E, length_app. simpl. lia. }
    rewrite Hlast. destruct done; reflexivity.
  - change (forEach_from longTasks nav T (task :: next :: rest) (length done) qp)
      with (qp' <- forEach_callback longTasks nav T qp task (length done) ;;
            forEach_from longTasks nav T (next :: rest) (S (length done)) qp').
    unfold forEach_callback.
    assert (Hlast : Nat.eqb (length done) (length longTasks - 1) = false).
    { apply Nat.eqb_neq. rewrite E, length_app. simpl. lia. }
    assert (Hnext : nth_error longTasks (length done + 1) = Some next).
    { rewrite E, nth_error_app2 by lia.
      replace (length done + 1 - length done)%nat with 1%nat by lia.
      reflexivity. }
    rewrite Hlast, Hnext. cbn [bind].
    specialize (IH next (done ++ [task])).
    rewrite length_app, Nat.add_1_r in IH. rewrite IH.
    + destruct done; cbn [app length Nat.eqb gaps_after]; unfold push;
        rewrite <- !app_assoc; reflexivity.
    + rewrite <- app_assoc. exact E.
Qed.

End ForEach.

(** The deriver never throws, and builds [cpu_gaps]. *)
Lemma findCPUQuietPeriods_gaps {Events : Type} (longTasks : list TimePeriod)
    (tot : TraceOfTab Events) :
  _findCPUQuietPeriods longTasks tot =
  Ok (cpu_gaps (navigationStart (timestamps tot) / 1000)
               (traceEnd (timestamps tot) / 1000) longTasks).
Proof.
  unfold _findCPUQuietPeriods. destruct longTasks as [|task rest].
  - reflexivity.
  - cbn [length Nat.eqb cpu_gaps].
    exact (forEach_from_gaps (task :: rest) _ _ rest task [] [] eq_refl).
Qed.

Lemma covered_cons (off : Q) (p : TimePeriod) (l : list TimePeriod) (x : Q) :
  covered off (p :: l) x <->
  (start p + off <= x /\ x <= end_ p + off) \/ covered off l x.
Proof.
  unfold covered. split.
  - intros [q [[E|Hin] Hq]].
    + subst q. left. exact Hq.
    + right. exists q. split; assumption.
  - intros [Hp|[q [Hin Hq]]].
    + exists p. split; [left; reflexivity|exact Hp].
    + exists q. split; [right; exact Hin|exact Hq].
Qed.

Lemma covered_nil (off x : Q) : ~ covered off [] x.
Proof. intros [q [[] _]]. Qed.

Section Gaps.

Variables nav T : Q.

Lemma gaps_after_length (rest : list TimePeriod) :
  forall task, length (gaps_after nav T task rest) = S (length rest).
Proof.
  induction rest as [|next rest IH]; intro task; simpl.
  - reflexivity.
  - rewrite IH. reflexivity.
Qed.

(** The gap at position [i] runs from the end of task [i] to the start of
    task [i + 1]. *)
Lemma gaps_after_nth (rest : list TimePeriod) :
  forall (task : TimePeriod) (i : nat) (a b : TimePeriod),
    nth_error (task :: rest) i = Some a ->
    nth_error (task :: rest) (S i) = Some b ->
    nth_error (gaps_after nav T task rest) i =
    Some (mkPeriod (end_ a + nav) (start b + nav)).
Proof.
  induction rest as [|next rest IH]; intros task i a b Ha Hb.
  - destruct i; simpl in Hb; [discriminate|destruct i; discriminate].
  - destruct i as [|i].
    + simpl in Ha, Hb. injection Ha as <-. injection Hb as <-. reflexivity.
    + simpl. apply IH; assumption.
Qed.

(** The last period runs from the end of the last task to the trace end. *)
Lemma gaps_after_last (rest : list TimePeriod) :
  forall (task a : TimePeriod),
    nth_error (task :: rest) (length rest) = Some a ->
    nth_error (gaps_after nav T task rest) (length rest) =
    Some (mkPeriod (end_ a + nav) T).
Proof.
  induction rest as [|next rest IH]; intros task a Ha.
  - simpl in Ha. injection Ha as <-. reflexivity.
  - simpl. apply IH. exact Ha.
Qed.

Lemma gaps_after_start (rest : list TimePeriod) :
  forall task,
    Forall well_formed rest -> consecutive (task :: rest) ->
    Forall (fun q => end_ task + nav <= start q) (gaps_after nav T task rest).
Proof.
  induction rest as [|next rest IH]; intros task Hwf Hc.
  - simpl. constructor; [simpl; lra|constructor].
  - simpl. inversion Hwf as [|? ? Hnext Hrest]; subst.
    inversion Hc as [|? ? Hc' Hhd]; subst.
    inversion Hhd as [|? ? Hle]; subst.
    constructor; [simpl; lra|].
    specialize (IH next Hrest Hc').
    unfold well_formed in Hnext.
    eapply Forall_impl; [|exact IH]. simpl. intros q Hq. lra.
Qed.

Lemma gaps_after_ascending (rest : list TimePeriod) :
  forall task,
    Forall well_formed rest -> consecutive (task :: rest) ->
    ascending (gaps_after nav T task rest).
Proof.
  induction rest as [|next rest IH]; intros task Hwf Hc.
  - simpl. repeat constructor.
  - simpl. inversion Hwf as [|? ? Hnext Hrest]; subst.
    inversion Hc as [|? ? Hc' Hhd]; subst.
    inversion Hhd as [|? ? Hle]; subst.
    unfold well_formed in Hnext.
    constructor.
    + apply IH; assumption.
    + destruct rest; simpl; constructor; simpl; lra.
Qed.

Lemma gaps_after_non_overlapping (rest : list TimePeriod) :
  forall task,
    Forall well_formed rest -> consecutive (task :: rest) ->
    non_overlapping (gaps_after nav T task rest).
Proof.
  induction rest as [|next rest IH]; intros task Hwf Hc.
  - simpl. repeat constructor.
  - simpl. inversion Hwf as [|? ? Hnext Hrest]; subst.
    inversion Hc as [|? ? Hc' Hhd]; subst.
    unfold well_formed in Hnext.
    constructor.
    + apply IH; assumption.
    + eapply Forall_impl; [|exact (gaps_after_start rest next Hrest Hc')].
      simpl. intros q Hq. lra.
Qed.

Lemma gaps_after_cover (rest : list TimePeriod) :
  forall task x,
    Forall well_formed rest -> consecutive (task :: rest) ->
    Forall (within_trace nav T) rest ->
    (covered 0 (gaps_after nav T task rest) x \/ covered nav rest x <->
     end_ task + nav <= x /\ x <= T).
Proof.
  induction rest as [|next rest IH]; intros task x Hwf Hc Hin.
  - simpl. rewrite covered_cons. simpl. split.
    + intros [[H|H]|H]; [lra|destruct (covered_nil _ _ H)..].
    + intro H. left. left. lra.
  - simpl. inversion Hwf as [|? ? Hnext Hrest]; subst.
    inversion Hc as [|? ? Hc' Hhd]; subst.
    inversion Hhd as [|? ? Hle]; subst.
    inversion Hin as [|? ? [Hn0 HnT] Hin']; subst.
    unfold well_formed in Hnext.
    specialize (IH next x Hrest Hc' Hin').
    rewrite !covered_cons. simpl. split.
    + intros [[H|H]|[H|H]]; try lra.
      * assert (end_ next + nav <= x /\ x <= T) by (apply IH; left; exact H). lra.
      * assert (end_ next + nav <= x /\ x <= T) by (apply IH; right; exact H). lra.
    + intros [H1 H2].
      destruct (Qlt_le_dec (start next + nav) x) as [Ha|Ha]; [|left; left; lra].
      destruct (Qlt_le_dec (end_ next + nav) x) as [Hb|Hb]; [|right; left; lra].
      assert (Hx : end_ next + nav <= x /\ x <= T) by lra.
      apply IH in Hx. destruct Hx as [Hx|Hx]; [left|right]; right; exact Hx.
Qed.

End Gaps.

Section GapsOfTasks.

Variables nav T : Q.
Variable longTasks : list TimePeriod.
Hypothesis tasks_well_formed : Forall well_formed longTasks.
Hypothesis tasks_consecutive : consecutive longTasks.
Hypothesis tasks_within_trace : Forall (within_trace nav T) longTasks.

Lemma cpu_gaps_ascending : ascending (cpu_gaps nav T longTasks).
Proof.
  destruct longTasks as [|first rest]; simpl; [repeat constructor|].
  inversion tasks_well_formed as [|? ? Hfirst Hrest]; subst.
  inversion tasks_within_trace as [|? ? [H0 HT] Hin]; subst.
  unfold well_formed in Hfirst.
  constructor.
  - apply gaps_after_ascending; assumption.
  - destruct rest; simpl; constructor; simpl; lra.
Qed.

Lemma cpu_gaps_non_overlapping : non_overlapping (cpu_gaps nav T longTasks).
Proof.
  destruct longTasks as [|first rest]; simpl; [repeat constructor|].
  inversion tasks_well_formed as [|? ? Hfirst Hrest]; subst.
  unfold well_formed in Hfirst.
  constructor.
  - apply gaps_after_non_overlapping; assumption.
  - eapply Forall_impl;
      [|exact (gaps_after_start nav T rest first Hrest tasks_consecutive)].
    simpl. intros q Hq. lra.
Qed.

Lemma cpu_gaps_cover (x : Q) :
  (0 <= x /\ x <= T) <->
  (covered 0 (cpu_gaps nav T longTasks) x \/ covered nav longTasks x).
Proof.
  destruct longTasks as [|first rest]; simpl.
  - rewrite covered_cons. simpl. split.
    + intro H. left. left. lra.
    + intros [[H|H]|H]; [lra|destruct (covered_nil _ _ H)..].
  - inversion tasks_well_formed as [|? ? Hfirst Hrest]; subst.
    inversion tasks_within_trace as [|? ? [H0 HT] Hin]; subst.
    unfold well_formed in Hfirst.
    pose proof (gaps_after_cover nav T rest first x Hrest tasks_consecutive Hin) as G.
    rewrite !covered_cons. simpl. split.
    + intros [H1 H2].
      destruct (Qlt_le_dec (start first + nav) x) as [Ha|Ha]; [|left; left; lra].
      destruct (Qlt_le_dec (end_ first + nav) x) as [Hb|Hb]; [|right; left; lra].
      assert (Hx : end_ first + nav <= x /\ x <= T) by lra.
      apply G in Hx. destruct Hx as [Hx|Hx]; [left|right]; right; exact Hx.
    + intros [[H|H]|[H|H]]; try lra.
      * assert (end_ first + nav <= x /\ x <= T) by (apply G; left; exact H). lra.
      * assert (end_ first + nav <= x /\ x <= T) by (apply G; right; exact H). lra.
Qed.

End GapsOfTasks.

(** ** The loop of the overlap matcher *)

(** One iteration, for two candidates. *)
Lemma while_loop_step (cpu net : TimePeriod) (cpuQ netQ : list TimePeriod) :
  while_loop (mkState (Some cpu) cpuQ (Some net) netQ) =
  if start cpu >=? start net
  then if end_ net >=? start cpu + REQUIRED_QUIET_WINDOW
       then inl (cpu, net)
       else while_loop (mkState (Some cpu) cpuQ (fst (shift netQ)) (snd (shift netQ)))
  else if end_ cpu >=? start net + REQUIRED_QUIET_WINDOW
       then inl (cpu, net)
       else while_loop (mkState (fst (shift cpuQ)) (snd (shift cpuQ)) (Some net) netQ).
Proof.
  simp while_loop.
  destruct (start cpu >=? start net); simpl.
  - destruct (end_ net >=? start cpu + REQUIRED_QUIET_WINDOW); reflexivity.
  - destruct (end_ cpu >=? start net + REQUIRED_QUIET_WINDOW); reflexivity.
Qed.

(** The loop is left as soon as a candidate is [undefined]. *)
Lemma while_loop_exit (st : LoopState) :
  cpuCandidate st = None \/ networkCandidate st = None ->
  while_loop st = inr st.
Proof.
  destruct st as [[cpu|] cpuQ [net|] netQ]; simpl; intros [H|H];
    try discriminate; simp while_loop; reflexivity.
Qed.

Lemma pending_shift (queue : list TimePeriod) :
  pending (fst (shift queue)) (snd (shift queue)) = queue.
Proof. destruct queue; reflexivity. Qed.

Lemma ascending_strong (l : list TimePeriod) :
  ascending l -> StronglySorted (fun p q => start p <= start q) l.
Proof.
  apply Sorted_StronglySorted. intros p q r Hpq Hqr. lra.
Qed.

Lemma ascending_head (p : TimePeriod) (l : list TimePeriod) :
  ascending (p :: l) -> forall q, In q (p :: l) -> start p <= start q.
Proof.
  intros H q [E|Hin].
  - subst q. lra.
  - apply ascending_strong in H. inversion H as [|? ? _ Hall]; subst.
    rewrite Forall_forall in Hall. apply Hall. exact Hin.
Qed.

Lemma ascending_tail (p : TimePeriod) (l : list TimePeriod) :
  ascending (p :: l) -> ascending l.
Proof. intro H. inversion H; assumption. Qed.

(** What the loop establishes, by induction on the iterations left. *)
Lemma while_loop_invariant (n : nat) :
  forall st : LoopState,
    (iterations_left st <= n)%nat ->
    let cpus := pending (cpuCandidate st) (cpuQueue st) in
    let nets := pending (networkCandidate st) (networkQueue st) in
    ascending cpus -> ascending nets ->
    match while_loop st with
    | inl (cpu, net) => earliest_pair cpus nets cpu net
    | inr st' =>
        (cpuCandidate st' = None \/ networkCandidate st' = None) /\
        forall x y, In x cpus -> In y nets -> ~ qualifies x y
    end.
Proof.
  induction n as [|n IH]; intros [[cpu|] cpuQ [net|] netQ];
    unfold iterations_left; simpl; intros Hn Hc Hm;
    try lia;
    try (rewrite while_loop_exit by (simpl; auto); simpl; split; [auto|];
         intros x y Hx Hy; solve [destruct Hx | destruct Hy]).
  rewrite while_loop_step.
  destruct (start cpu >=? start net) eqn:Hstart.
  - apply Qgeb_ge in Hstart.
    destruct (end_ net >=? start cpu + REQUIRED_QUIET_WINDOW) eqn:Htest.
    + apply Qgeb_ge in Htest. split; [left; split; assumption|].
      exists [], cpuQ, [], netQ. repeat split; intros x y Hx Hy; contradiction.
    + apply Qgeb_lt in Htest.
      assert (Hdrop : forall x, In x (cpu :: cpuQ) -> ~ qualifies x net).
      { intros x Hx [[H1 H2]|[H1 H2]];
          pose proof (ascending_head _ _ Hc x Hx); lra. }
      specialize (IH (mkState (Some cpu) cpuQ (fst (shift netQ)) (snd (shift netQ)))).
      simpl in IH. rewrite pending_shift in IH.
      assert (Hmeasure : (iterations_left
                (mkState (Some cpu) cpuQ (fst (shift netQ)) (snd (shift netQ))) <= n)%nat).
      { unfold iterations_left. destruct netQ; simpl in *; lia. }
      specialize (IH Hmeasure Hc (ascending_tail _ _ Hm)).
      destruct (while_loop _) as [[c m]|st'].
      * destruct IH as [Hq [l1 [l2 [m1 [m2 [E1 [E2 [N1 N2]]]]]]]].
        split; [exact Hq|].
        exists l1, l2, (net :: m1), m2. repeat split.
        -- exact E1.
        -- simpl. rewrite E2. reflexivity.
        -- intros x y Hx [Ey|Hy].
           ++ subst y. apply Hdrop. rewrite E1. apply in_or_app. left. exact Hx.
           ++ apply N1; assumption.
        -- intros x y Hx [Ey|Hy].
           ++ subst y. apply Hdrop. exact Hx.
           ++ apply N2; assumption.
      * destruct IH as [Hnone N]. split; [exact Hnone|].
        intros x y Hx [Ey|Hy].
        -- subst y. apply Hdrop. exact Hx.
        -- apply N; assumption.
  - apply Qgeb_lt in Hstart.
    destruct (end_ cpu >=? start net + REQUIRED_QUIET_WINDOW) eqn:Htest.
    + apply Qgeb_ge in Htest. split; [right; split; assumption|].
      exists [], cpuQ, [], netQ. repeat split; intros x y Hx Hy; contradiction.
    + apply Qgeb_lt in Htest.
      assert (Hdrop : forall y, In y (net :: netQ) -> ~ qualifies cpu y).
      { intros y Hy [[H1 H2]|[H1 H2]];
          pose proof (ascending_head _ _ Hm y Hy); lra. }
      specialize (IH (mkState (fst (shift cpuQ)) (snd (shift cpuQ)) (Some net) netQ)).
      simpl in IH. rewrite pending_shift in IH.
      assert (Hmeasure : (iterations_left
                (mkState (fst (shift cpuQ)) (snd (shift cpuQ)) (Some net) netQ) <= n)%nat).
      { unfold iterations_left. destruct cpuQ; simpl in *; lia. }
      specialize (IH Hmeasure (ascending_tail _ _ Hc) Hm).
      destruct (while_loop _) as [[c m]|st'].
      * destruct IH as [Hq [l1 [l2 [m1 [m2 [E1 [E2 [N1 N2]]]]]]]].
        split; [exact Hq|].
        exists (cpu :: l1), l2, m1, m2. repeat split.
        -- simpl. rewrite E1. reflexivity.
        -- exact E2.
        -- intros x y [Ex|Hx] Hy.
           ++ subst x. apply Hdrop. exact Hy.
           ++ apply N1; assumption.
        -- intros x y [Ex|Hx] Hy.
           ++ subst x. apply Hdrop. rewrite E2. apply in_or_app. left. exact Hy.
           ++ apply N2; assumption.
      * destruct IH as [Hnone N]. split; [exact Hnone|].
        intros x y [Ex|Hx] Hy.
        -- subst x. apply Hdrop. exact Hy.
        -- apply N; assumption.
Qed.

(** What the loop yields on any two lists, ascending or not. *)
Lemma while_loop_result (n : nat) :
  forall st : LoopState,
    (iterations_left st <= n)%nat ->
    match while_loop st with
    | inl (cpu, net) =>
        In cpu (pending (cpuCandidate st) (cpuQueue st)) /\
        In net (pending (networkCandidate st) (networkQueue st)) /\
        qualifies cpu net
    | inr st' =>
        (cpuCandidate st' = None \/ networkCandidate st' = None) /\
        (cpuCandidate st' = None -> networkCandidate st' = None ->
         cpuCandidate st = None /\ networkCandidate st = None)
    end.
Proof.
  induction n as [|n IH]; intros [[cpu|] cpuQ [net|] netQ];
    unfold iterations_left; simpl; intros Hn;
    try lia;
    try (rewrite while_loop_exit by (simpl; auto); simpl; split; auto; fail).
  rewrite while_loop_step.
  destruct (start cpu >=? start net) eqn:Hstart.
  - apply Qgeb_ge in Hstart.
    destruct (end_ net >=? start cpu + REQUIRED_QUIET_WINDOW) eqn:Htest.
    + apply Qgeb_ge in Htest. simpl. repeat split; auto. left. split; assumption.
    + specialize (IH (mkState (Some cpu) cpuQ (fst (shift netQ)) (snd (shift netQ)))).
      simpl in IH. rewrite pending_shift in IH.
      assert (Hmeasure : (iterations_left
                (mkState (Some cpu) cpuQ (fst (shift netQ)) (snd (shift netQ))) <= n)%nat).
      { unfold iterations_left. destruct netQ; simpl in *; lia. }
      specialize (IH Hmeasure).
      destruct (while_loop _) as [[c m]|st'].
      * destruct IH as [Hc [Hm Hq]].
        split; [exact Hc|split; [right; exact Hm|exact Hq]].
      * destruct IH as [Hnone Hboth]. split; [exact Hnone|].
        intros E1 E2. destruct (Hboth E1 E2) as [Habs _]. discriminate.
  - apply Qgeb_lt in Hstart.
    destruct (end_ cpu >=? start net + REQUIRED_QUIET_WINDOW) eqn:Htest.
    + apply Qgeb_ge in Htest. simpl. repeat split; auto. right. split; assumption.
    + specialize (IH (mkState (fst (shift cpuQ)) (snd (shift cpuQ)) (Some net) netQ)).
      simpl in IH. rewrite pending_shift in IH.
      assert (Hmeasure : (iterations_left
                (mkState (fst (shift cpuQ)) (snd (shift cpuQ)) (Some net) netQ) <= n)%nat).
      { unfold iterations_left. destruct cpuQ; simpl in *; lia. }
      specialize (IH Hmeasure).
      destruct (while_loop _) as [[c m]|st'].
      * destruct IH as [Hc [Hm Hq]].
        split; [right; exact Hc|split; [exact Hm|exact Hq]].
      * destruct IH as [Hnone Hboth]. split; [exact Hnone|].
        intros E1 E2. destruct (Hboth E1 E2) as [_ Habs]. discriminate.
Qed.

(** The state in which [findOverlappingQuietPeriods] enters its loop. *)
Lemma initial_pending (cpus nets : list TimePeriod) :
  pending (cpuCandidate (mkState (fst (shift cpus)) (snd (shift cpus))
                                 (fst (shift nets)) (snd (shift nets))))
          (cpuQueue (mkState (fst (shift cpus)) (snd (shift cpus))
                             (fst (shift nets)) (snd (shift nets)))) = cpus /\
  pending (networkCandidate (mkState (fst (shift cpus)) (snd (shift cpus))
                                     (fst (shift nets)) (snd (shift nets))))
          (networkQueue (mkState (fst (shift cpus)) (snd (shift cpus))
                                 (fst (shift nets)) (snd (shift nets)))) = nets.
Proof. simpl. rewrite !pending_shift. split; reflexivity. Qed.

(** A successful search returns a qualifying pair of the two lists. *)
Lemma search_ok_members (cpus nets : list TimePeriod) (info : QuietPeriodInfo) :
  findOverlappingQuietPeriods_search cpus nets = Ok info ->
  In (cpuQuietPeriod info) cpus /\ In (networkQuietPeriod info) nets /\
  qualifies (cpuQuietPeriod info) (networkQuietPeriod info) /\
  cpuQuietPeriods info = cpus /\ networkQuietPeriods info = nets.
Proof.
  unfold findOverlappingQuietPeriods_search. cbv zeta.
  pose proof (while_loop_result _ _ (Nat.le_refl
    (iterations_left (mkState (fst (shift cpus)) (snd (shift cpus))
                              (fst (shift nets)) (snd (shift nets)))))) as R.
  destruct (initial_pending cpus nets) as [Ec En].
  rewrite Ec, En in R.
  destruct (while_loop _) as [[c m]|st']; [|discriminate].
  intro E. injection E as <-. simpl. tauto.
Qed.

(** On ascending lists the returned pair is the earliest one, and a failed
    search means that no pair qualifies. *)
Lemma search_ascending (cpus nets : list TimePeriod) :
  ascending cpus -> ascending nets ->
  match findOverlappingQuietPeriods_search cpus nets with
  | Ok info =>
      earliest_pair cpus nets (cpuQuietPeriod info) (networkQuietPeriod info)
  | Throw _ => forall x y, In x cpus -> In y nets -> ~ qualifies x y
  end.
Proof.
  intros Hc Hn.
  unfold findOverlappingQuietPeriods_search. cbv zeta.
  pose proof (while_loop_invariant _ _ (Nat.le_refl
    (iterations_left (mkState (fst (shift cpus)) (snd (shift cpus))
                              (fst (shift nets)) (snd (shift nets)))))) as R.
  cbv zeta in R.
  destruct (initial_pending cpus nets) as [Ec En].
  rewrite Ec, En in R. specialize (R Hc Hn).
  destruct (while_loop _) as [[c m]|st']; simpl.
  - exact R.
  - exact (proj2 R).
Qed.

(** In an ascending list, what comes after a period starts no earlier. *)
Lemma ascending_split (l1 l2 : list TimePeriod) (p q : TimePeriod) :
  ascending (l1 ++ p :: l2) -> In q (p :: l2) -> start p <= start q.
Proof.
  induction l1 as [|a l1 IH]; simpl; intros H Hq.
  - exact (ascending_head _ _ H q Hq).
  - apply IH; [exact (ascending_tail _ _ H)|exact Hq].
Qed.

Lemma earliest_pair_starts (cpus nets : list TimePeriod) (cpu net : TimePeriod) :
  ascending cpus -> ascending nets ->
  earliest_pair cpus nets cpu net ->
  forall x y, In x cpus -> In y nets -> qualifies x y ->
              start cpu <= start x /\ start net <= start y.
Proof.
  intros Hc Hn [_ [l1 [l2 [m1 [m2 [E1 [E2 [N1 N2]]]]]]]] x y Hx Hy Hq.
  split.
  - rewrite E1 in Hx. apply in_app_or in Hx. destruct Hx as [Hx|Hx].
    + destruct (N1 x y Hx Hy Hq).
    + rewrite E1 in Hc. exact (ascending_split _ _ _ _ Hc Hx).
  - rewrite E2 in Hy. apply in_app_or in Hy. destruct Hy as [Hy|Hy].
    + destruct (N2 x y Hx Hy Hq).
    + rewrite E2 in Hn. exact (ascending_split _ _ _ _ Hn Hy).
Qed.

Lemma isLongEnoughQuietPeriod_spec (FMPTsInMs : Q) (p : TimePeriod) :
  isLongEnoughQuietPeriod (Some FMPTsInMs) p = true <->
  end_ p - start p >= 5000 /\ end_ p > FMPTsInMs + 5000.
Proof.
  unfold isLongEnoughQuietPeriod, REQUIRED_QUIET_WINDOW.
  rewrite andb_true_iff, Qgtb_gt, Qgeb_ge. tauto.
Qed.

Lemma isLongEnoughQuietPeriod_length (FMPTsInMs : option Q) (p : TimePeriod) :
  isLongEnoughQuietPeriod FMPTsInMs p = true ->
  start p + REQUIRED_QUIET_WINDOW <= end_ p.
Proof.
  destruct FMPTsInMs as [f|]; [|discriminate].
  rewrite isLongEnoughQuietPeriod_spec. unfold REQUIRED_QUIET_WINDOW. lra.
Qed.

Lemma Qdiv_1000 (x : Q) : x / 1000 == x * (1 # 1000).
Proof. unfold Qdiv. assert (E : / 1000 == 1 # 1000) by reflexivity. rewrite E. reflexivity. Qed.

(* ===================================================================== *)
(** * The claims *)
(* ===================================================================== *)

(** ** CPU quiet-period deriver *)

(** C2, as the code has it.  The deriver never throws.  For no long task it
    returns the one period [[0, traceEnd / 1000]].  Otherwise it returns
    [[0, firstTask.start + nav]], then a list [gaps] with one period per
    task: at position [i] the gap [[task_i.end + nav, task_(i+1).start + nav]]
    for each consecutive pair, and at the last position
    [[lastTask.end + nav, traceEnd / 1000]], where
    [nav = navigationStart / 1000] is added to every task boundary. *)
Theorem cpu_quiet_periods_derived {Events : Type}
    (longTasks : list TimePeriod) (tot : TraceOfTab Events) :
  let nav := navigationStart (timestamps tot) / 1000 in
  let T := traceEnd (timestamps tot) / 1000 in
  (longTasks = [] -> _findCPUQuietPeriods longTasks tot = Ok [mkPeriod 0 T]) /\
  (forall first rest, longTasks = first :: rest ->
     exists gaps,
       _findCPUQuietPeriods longTasks tot =
         Ok (mkPeriod 0 (start first + nav) :: gaps) /\
       length gaps = length longTasks /\
       (forall i a b,
          nth_error longTasks i = Some a ->
          nth_error longTasks (S i) = Some b ->
          nth_error gaps i = Some (mkPeriod (end_ a + nav) (start b + nav))) /\
       (forall last,
          nth_error longTasks (length rest) = Some last ->
          nth_error gaps (length rest) = Some (mkPeriod (end_ last + nav) T))).
Proof.
  intros nav T. rewrite findCPUQuietPeriods_gaps. fold nav T. split.
  - intros ->. reflexivity.
  - intros first rest ->. exists (gaps_after nav T first rest).
    split; [reflexivity|]. split; [apply gaps_after_length|]. split.
    + intros i a b. apply gaps_after_nth.
    + intro last. apply gaps_after_last.
Qed.

Lemma cpu_quiet_periods_derived_witness :
  exists gaps,
    _findCPUQuietPeriods [mkPeriod 5000 5100] sample_trace =
      Ok (mkPeriod 0 (5000 + 1000000 / 1000) :: gaps) /\
    length gaps = 1%nat /\
    (forall i a b,
       nth_error [mkPeriod 5000 5100] i = Some a ->
       nth_error [mkPeriod 5000 5100] (S i) = Some b ->
       nth_error gaps i = Some (mkPeriod (end_ a + 1000000 / 1000) (start b + 1000000 / 1000))) /\
    (forall last,
       nth_error [mkPeriod 5000 5100] 0 = Some last ->
       nth_error gaps 0 = Some (mkPeriod (end_ last + 1000000 / 1000) (30000000 / 1000))).
Proof.
  exact (proj2 (cpu_quiet_periods_derived [mkPeriod 5000 5100] sample_trace)
               (mkPeriod 5000 5100) [] eq_refl).
Defined.

(** C2, as the specification states it, fails: with the navigation start
    one second into the trace clock, the periods derived for the one long
    task [[5000, 5100]] are [[0, 6000]] and [[6100, 30000]], not
    [[0, 5000]] and [[5100, traceEnd]], whether [traceEnd] is read in
    milliseconds or as the raw timestamp. *)
Lemma cpu_quiet_periods_not_unshifted :
  exists ps,
    _findCPUQuietPeriods [mkPeriod 5000 5100] sample_trace = Ok ps /\
    ~ Forall2 same_period ps
        (spec_cpu_quiet_periods (30000000 / 1000) [mkPeriod 5000 5100]) /\
    ~ Forall2 same_period ps
        (spec_cpu_quiet_periods 30000000 [mkPeriod 5000 5100]).
Proof.
  eexists. split; [vm_compute; reflexivity|].
  split; intro H; inversion H as [|? ? ? ? [_ Hend] _]; subst;
    simpl in Hend; vm_compute in Hend; discriminate.
Qed.

(** C7, as the code has it.  When every long task has [start <= end], each
    task ends no later than the next one starts, and every task moved by
    [nav = navigationStart / 1000] lies within [[0, traceEnd / 1000]], the
    deriver returns periods that are ascending by start and mutually
    non-overlapping, and an instant lies in [[0, traceEnd / 1000]] exactly
    when it lies in one of the periods or in one of the long tasks moved by
    [nav]. *)
Theorem cpu_quiet_periods_partition {Events : Type}
    (longTasks : list TimePeriod) (tot : TraceOfTab Events) :
  let nav := navigationStart (timestamps tot) / 1000 in
  let T := traceEnd (timestamps tot) / 1000 in
  Forall well_formed longTasks ->
  consecutive longTasks ->
  Forall (within_trace nav T) longTasks ->
  exists ps,
    _findCPUQuietPeriods longTasks tot = Ok ps /\
    ascending ps /\
    non_overlapping ps /\
    forall x, (0 <= x /\ x <= T) <-> (covered 0 ps x \/ covered nav longTasks x).
Proof.
  intros nav T Hwf Hc Hin. exists (cpu_gaps nav T longTasks).
  split; [apply findCPUQuietPeriods_gaps|]. split; [|split].
  - apply cpu_gaps_ascending; assumption.
  - apply cpu_gaps_non_overlapping; assumption.
  - intro x. apply cpu_gaps_cover; assumption.
Qed.

Lemma cpu_quiet_periods_partition_witness :
  exists ps,
    _findCPUQuietPeriods [mkPeriod 5000 5100] sample_trace = Ok ps /\
    ascending ps /\
    non_overlapping ps /\
    forall x, (0 <= x /\ x <= 30000000 / 1000) <->
              (covered 0 ps x \/ covered (1000000 / 1000) [mkPeriod 5000 5100] x).
Proof.
  apply (cpu_quiet_periods_partition [mkPeriod 5000 5100] sample_trace).
  - repeat constructor. unfold well_formed. simpl. lra.
  - repeat constructor.
  - repeat constructor; simpl; rewrite !Qdiv_1000; lra.
Defined.

(** C7, as the specification states it, fails in two ways.  With the
    navigation start one second into the trace clock, the instant 6050 ms
    lies in the trace but neither in a derived period ([[0, 6000]],
    [[6100, 30000]]) nor in the long task [[5000, 5100]] as given.  With a
    long task that runs past the end of the trace, the instant 25000 ms lies
    in the long task but not in [[0, 20000]], and the instant 20000 s lies
    in [[0, traceEnd]] read as the raw timestamp but in no period and no
    long task. *)
Lemma cpu_quiet_periods_no_partition :
  (exists ps,
     _findCPUQuietPeriods [mkPeriod 5000 5100] sample_trace = Ok ps /\
     Forall well_formed [mkPeriod 5000 5100] /\
     ascending [mkPeriod 5000 5100] /\
     non_overlapping [mkPeriod 5000 5100] /\
     ~ (forall x, (0 <= x /\ x <= 30000000 / 1000) <->
                  (covered 0 ps x \/ covered 0 [mkPeriod 5000 5100] x)) /\
     ~ (forall x, (0 <= x /\ x <= 30000000) <->
                  (covered 0 ps x \/ covered 0 [mkPeriod 5000 5100] x))) /\
  (exists ps,
     _findCPUQuietPeriods [mkPeriod 100 30000] overrun_trace = Ok ps /\
     Forall well_formed [mkPeriod 100 30000] /\
     ascending [mkPeriod 100 30000] /\
     non_overlapping [mkPeriod 100 30000] /\
     ~ (forall x, (0 <= x /\ x <= 20000000 / 1000) <->
                  (covered 0 ps x \/ covered 0 [mkPeriod 100 30000] x)) /\
     ~ (forall x, (0 <= x /\ x <= 20000000) <->
                  (covered 0 ps x \/ covered 0 [mkPeriod 100 30000] x))).
Proof.
  split.
  - eexists. split; [vm_compute; reflexivity|].
    split; [repeat constructor; unfold well_formed; simpl; lra|].
    split; [repeat constructor|]. split; [repeat constructor|].
    split; intro H.
    + assert (Hx : 0 <= 6050 /\ 6050 <= 30000000 / 1000)
        by (rewrite Qdiv_1000; lra).
      apply H in Hx. rewrite !covered_cons in Hx. simpl in Hx.
      destruct Hx as [[Hx|[Hx|Hx]]|[Hx|Hx]];
        try lra; exact (covered_nil _ _ Hx).
    + assert (Hx : 0 <= 6050 /\ 6050 <= 30000000) by lra.
      apply H in Hx. rewrite !covered_cons in Hx. simpl in Hx.
      destruct Hx as [[Hx|[Hx|Hx]]|[Hx|Hx]];
        try lra; exact (covered_nil _ _ Hx).
  - eexists. split; [vm_compute; reflexivity|].
    split; [repeat constructor; unfold well_formed; simpl; lra|].
    split; [repeat constructor|]. split; [repeat constructor|].
    split; intro H.
    + assert (Hx : covered 0 [mkPeriod 0 (100000 # 1000); mkPeriod (30000000 # 1000) (20000000 # 1000)] 25000 \/
                   covered 0 [mkPeriod 100 30000] 25000).
      { right. rewrite covered_cons. left. simpl. lra. }
      apply H in Hx. rewrite Qdiv_1000 in Hx. lra.
    + assert (Hx : 0 <= 20000000 /\ 20000000 <= 20000000) by lra.
      apply H in Hx. rewrite !covered_cons in Hx. simpl in Hx.
      destruct Hx as [[Hx|[Hx|Hx]]|[Hx|Hx]];
        try lra; exact (covered_nil _ _ Hx).
Qed.

(** ** Quiet-window filter *)

(** C6.  With [FMP] the first meaningful paint in milliseconds, the filter
    predicate holds of a period exactly when [end - start >= 5000] and
    [end > FMP + 5000]; so filtering a list keeps exactly its periods that
    satisfy both conditions, in their order. *)
Theorem quiet_window_filter (FMP : Q) (periods : list TimePeriod) :
  (forall p,
     isLongEnoughQuietPeriod (Some FMP) p = true <->
     end_ p - start p >= 5000 /\ end_ p > FMP + 5000) /\
  (forall p,
     In p (filter (isLongEnoughQuietPeriod (Some FMP)) periods) <->
     In p periods /\ end_ p - start p >= 5000 /\ end_ p > FMP + 5000) /\
  (forall p,
     In p periods -> end_ p - start p < 5000 \/ end_ p <= FMP + 5000 ->
     ~ In p (filter (isLongEnoughQuietPeriod (Some FMP)) periods)) /\
  (Forall (fun p => end_ p - start p >= 5000 /\ end_ p > FMP + 5000) periods ->
   filter (isLongEnoughQuietPeriod (Some FMP)) periods = periods).
Proof.
  split; [|split; [|split]].
  - intro p. apply isLongEnoughQuietPeriod_spec.
  - intro p. rewrite filter_In, isLongEnoughQuietPeriod_spec. tauto.
  - intros p _ Hbad Hin. apply filter_In in Hin. destruct Hin as [_ Hin].
    apply isLongEnoughQuietPeriod_spec in Hin. lra.
  - intro Hall. apply forallb_filter_id. apply forallb_forall.
    rewrite Forall_forall in Hall. intros p Hp.
    apply isLongEnoughQuietPeriod_spec. apply Hall. exact Hp.
Qed.

Lemma quiet_window_filter_witness :
  ~ In (mkPeriod 0 6000)
       (filter (isLongEnoughQuietPeriod (Some 3000))
               [mkPeriod 0 6000; mkPeriod 6100 30000]) /\
  filter (isLongEnoughQuietPeriod (Some 3000)) [mkPeriod 6100 30000] =
  [mkPeriod 6100 30000].
Proof.
  split.
  - apply (proj1 (proj2 (proj2
      (quiet_window_filter 3000 [mkPeriod 0 6000; mkPeriod 6100 30000])))).
    + left. reflexivity.
    + right. simpl. lra.
  - apply (proj2 (proj2 (proj2 (quiet_window_filter 3000 [mkPeriod 6100 30000])))).
    repeat constructor; simpl; lra.
Defined.

(** ** Overlap matcher *)

(** C1.  On two ascending lists the search returns the earliest qualifying
    pair: the returned pair qualifies, no period before it in either list
    is part of a qualifying pair, and both its starts are the least among
    the qualifying pairs; when some pair qualifies the search returns.  In
    the loop, when [cpu.start >= net.start] (equal starts included) the
    test is [net.end >= cpu.start + 5000], and when it fails the network
    candidate is replaced by the next one; when [net.start > cpu.start] the
    test is [cpu.end >= net.start + 5000], and when it fails the CPU
    candidate is replaced by the next one. *)
Theorem overlap_matcher_earliest (cpus nets : list TimePeriod) :
  ascending cpus -> ascending nets ->
  (forall info,
     findOverlappingQuietPeriods_search cpus nets = Ok info ->
     earliest_pair cpus nets (cpuQuietPeriod info) (networkQuietPeriod info) /\
     forall x y, In x cpus -> In y nets -> qualifies x y ->
                 start (cpuQuietPeriod info) <= start x /\
                 start (networkQuietPeriod info) <= start y) /\
  ((exists x y, In x cpus /\ In y nets /\ qualifies x y) ->
   exists info, findOverlappingQuietPeriods_search cpus nets = Ok info) /\
  (forall cpu net cpuQ netQ,
     start cpu >= start net ->
     while_loop (mkState (Some cpu) cpuQ (Some net) netQ) =
     if end_ net >=? start cpu + 5000
     then inl (cpu, net)
     else while_loop (mkState (Some cpu) cpuQ (fst (shift netQ)) (snd (shift netQ)))) /\
  (forall cpu net cpuQ netQ,
     start net > start cpu ->
     while_loop (mkState (Some cpu) cpuQ (Some net) netQ) =
     if end_ cpu >=? start net + 5000
     then inl (cpu, net)
     else while_loop (mkState (fst (shift cpuQ)) (snd (shift cpuQ)) (Some net) netQ)).
Proof.
  intros Hc Hn. pose proof (search_ascending cpus nets Hc Hn) as S.
  split; [|split; [|split]].
  - intros info E. rewrite E in S. split; [exact S|].
    apply earliest_pair_starts; assumption.
  - intros [x [y [Hx [Hy Hq]]]].
    destruct (findOverlappingQuietPeriods_search cpus nets) as [info|e].
    + exists info. reflexivity.
    + destruct (S x y Hx Hy Hq).
  - intros cpu net cpuQ netQ H. rewrite while_loop_step.
    apply Qgeb_ge in H. rewrite H. reflexivity.
  - intros cpu net cpuQ netQ H. rewrite while_loop_step.
    apply Qgeb_lt in H. rewrite H. reflexivity.
Qed.

Lemma overlap_matcher_earliest_witness :
  exists info,
    findOverlappingQuietPeriods_search
      [mkPeriod 0 6000; mkPeriod 6100 30000]
      [mkPeriod 0 5500; mkPeriod 6100 30000] = Ok info.
Proof.
  apply (proj1 (proj2 (overlap_matcher_earliest
           [mkPeriod 0 6000; mkPeriod 6100 30000]
           [mkPeriod 0 5500; mkPeriod 6100 30000]
           ltac:(repeat constructor; simpl; lra)
           ltac:(repeat constructor; simpl; lra)))).
  exists (mkPeriod 6100 30000), (mkPeriod 6100 30000).
  split; [right; left; reflexivity|].
  split; [right; left; reflexivity|].
  left. unfold REQUIRED_QUIET_WINDOW. simpl. lra.
Defined.

(** C4.  When the search finds no match, the loop is left in a state in
    which a candidate is [undefined], and the error thrown tells which: if
    a CPU candidate remains (so the network queue ran out) it is
    [NO_TTI_NETWORK_IDLE_PERIOD], and if the CPU queue ran out it is
    [NO_TTI_CPU_IDLE_PERIOD].  Nothing is returned. *)
Theorem overlap_matcher_failure (cpus nets : list TimePeriod) :
  (forall info, findOverlappingQuietPeriods_search cpus nets <> Ok info) ->
  exists st,
    while_loop (mkState (fst (shift cpus)) (snd (shift cpus))
                        (fst (shift nets)) (snd (shift nets))) = inr st /\
    (cpuCandidate st = None \/ networkCandidate st = None) /\
    (cpuCandidate st <> None ->
     networkCandidate st = None /\
     findOverlappingQuietPeriods_search cpus nets =
       Throw (LHError NO_TTI_NETWORK_IDLE_PERIOD)) /\
    (cpuCandidate st = None ->
     findOverlappingQuietPeriods_search cpus nets =
       Throw (LHError NO_TTI_CPU_IDLE_PERIOD)) /\
    (cpuCandidate st = None -> networkCandidate st = None ->
     cpus = [] /\ nets = []).
Proof.
  intro Hno. unfold findOverlappingQuietPeriods_search in *. cbv zeta in *.
  pose proof (while_loop_result _ _ (Nat.le_refl
    (iterations_left (mkState (fst (shift cpus)) (snd (shift cpus))
                              (fst (shift nets)) (snd (shift nets)))))) as R.
  destruct (while_loop _) as [[c m]|st].
  - destruct (Hno _ eq_refl).
  - exists st. destruct R as [Hnone Hboth].
    split; [reflexivity|]. split; [exact Hnone|]. split; [|split].
    + intro Hc. destruct (cpuCandidate st); [|contradiction].
      split; [|reflexivity]. destruct Hnone as [H|H]; [discriminate|exact H].
    + intros ->. reflexivity.
    + intros E1 E2. destruct (Hboth E1 E2) as [H1 H2]. simpl in H1, H2.
      destruct cpus; [|discriminate]. destruct nets; [|discriminate].
      split; reflexivity.
Qed.

Lemma overlap_matcher_failure_witness :
  exists st,
    while_loop (mkState (Some (mkPeriod 6100 30000)) [] None []) = inr st /\
    (cpuCandidate st = None \/ networkCandidate st = None) /\
    (cpuCandidate st <> None ->
     networkCandidate st = None /\
     findOverlappingQuietPeriods_search [mkPeriod 6100 30000] [] =
       Throw (LHError NO_TTI_NETWORK_IDLE_PERIOD)) /\
    (cpuCandidate st = None ->
     findOverlappingQuietPeriods_search [mkPeriod 6100 30000] [] =
       Throw (LHError NO_TTI_CPU_IDLE_PERIOD)) /\
    (cpuCandidate st = None -> networkCandidate st = None ->
     [mkPeriod 6100 30000] = [] /\ @nil TimePeriod = []).
Proof.
  apply (overlap_matcher_failure [mkPeriod 6100 30000] []).
  intros info H. vm_compute in H. discriminate.
Defined.

(** ** The whole computation *)

Section Computation.

Variables NetworkRequest Events : Type.
Variable recorder : list NetworkRequest -> Q -> Q -> list TimePeriod.
Variable processor : TraceOfTab Events -> list TopLevelEvent.

(** [findOverlappingQuietPeriods] is the search on the two filtered lists. *)
Lemma findOverlappingQuietPeriods_unfold (longTasks : list TimePeriod)
    (records : list NetworkRequest) (tot : TraceOfTab Events) :
  findOverlappingQuietPeriods recorder longTasks records tot =
  findOverlappingQuietPeriods_search
    (filter (isLongEnoughQuietPeriod (FMPTsInMs_of tot))
       (cpu_gaps (navigationStart (timestamps tot) / 1000)
                 (traceEnd (timestamps tot) / 1000) longTasks))
    (filter (isLongEnoughQuietPeriod (FMPTsInMs_of tot))
       (_findNetworkQuietPeriods recorder records tot)).
Proof.
  unfold findOverlappingQuietPeriods.
  rewrite findCPUQuietPeriods_gaps. reflexivity.
Qed.

(** C10.  When no CPU quiet period passes the filter,
    [findOverlappingQuietPeriods] throws [NO_TTI_CPU_IDLE_PERIOD] whatever
    the network periods are; so does the search on an empty CPU list, the
    network list being empty or not. *)
Theorem no_cpu_candidate_error (longTasks : list TimePeriod)
    (records : list NetworkRequest) (tot : TraceOfTab Events) :
  (forall cpuPeriods,
     _findCPUQuietPeriods longTasks tot = Ok cpuPeriods ->
     filter (isLongEnoughQuietPeriod (FMPTsInMs_of tot)) cpuPeriods = [] ->
     findOverlappingQuietPeriods recorder longTasks records tot =
       Throw (LHError NO_TTI_CPU_IDLE_PERIOD)) /\
  (forall nets,
     findOverlappingQuietPeriods_search [] nets =
       Throw (LHError NO_TTI_CPU_IDLE_PERIOD)) /\
  findOverlappingQuietPeriods_search [] [] =
    Throw (LHError NO_TTI_CPU_IDLE_PERIOD).
Proof.
  assert (Hempty : forall nets,
            findOverlappingQuietPeriods_search [] nets =
              Throw (LHError NO_TTI_CPU_IDLE_PERIOD)).
  { intro nets. unfold findOverlappingQuietPeriods_search. cbv zeta.
    rewrite while_loop_exit by (left; reflexivity). reflexivity. }
  split; [|split; [exact Hempty|apply Hempty]].
  intros cpuPeriods E Hnone. unfold findOverlappingQuietPeriods.
  rewrite E. cbn [bind]. rewrite Hnone. apply Hempty.
Qed.

(** What a successful [computeObservedMetric] went through. *)
Lemma computeObservedMetric_ok (data : MetricComputationData NetworkRequest Events)
    (m : Metric) :
  computeObservedMetric recorder processor data = Ok m ->
  exists fmp dcl info,
    firstMeaningfulPaint (timestamps (traceOfTab data)) = Some fmp /\
    domContentLoaded (timestamps (traceOfTab data)) = Some dcl /\
    ~ fmp == 0 /\ ~ dcl == 0 /\
    findOverlappingQuietPeriods recorder
      (map asTimePeriod
         (filter (fun event => duration event >=? 50) (processor (traceOfTab data))))
      (networkRecords data) (traceOfTab data) = Ok info /\
    m = mkMetric
          ((Math_max (start (cpuQuietPeriod info)) (fmp / 1000) (dcl / 1000) * 1000
            - navigationStart (timestamps (traceOfTab data))) / 1000)
          (Math_max (start (cpuQuietPeriod info)) (fmp / 1000) (dcl / 1000) * 1000).
Proof.
  unfold computeObservedMetric. cbv zeta.
  destruct (firstMeaningfulPaint _) as [fmp|]; [|discriminate].
  destruct (Qeq_bool fmp 0) eqn:Ef; [discriminate|].
  destruct (domContentLoaded _) as [dcl|]; [|discriminate].
  destruct (Qeq_bool dcl 0) eqn:Ed; [discriminate|].
  destruct (findOverlappingQuietPeriods _ _ _ _) as [info|e]; [|discriminate].
  cbn [bind]. intro E. injection E as <-.
  exists fmp, dcl, info. repeat split.
  - intro H. apply Qeq_bool_iff in H. congruence.
  - intro H. apply Qeq_bool_iff in H. congruence.
Qed.

(** C3, as the code has it.  A successful computation returns
    [timestamp = max(cpuQuietPeriod.start, FMP / 1000, DCL / 1000) * 1000],
    on the microsecond clock of the timestamps of the trace, and
    [timing = (timestamp - navigationStart) / 1000], in milliseconds, for
    the CPU quiet period that [findOverlappingQuietPeriods] matched on the
    top-level events of 50 ms or more. *)
Theorem metric_assembly (data : MetricComputationData NetworkRequest Events)
    (m : Metric) :
  computeObservedMetric recorder processor data = Ok m ->
  exists fmp dcl info,
    firstMeaningfulPaint (timestamps (traceOfTab data)) = Some fmp /\
    domContentLoaded (timestamps (traceOfTab data)) = Some dcl /\
    findOverlappingQuietPeriods recorder
      (map asTimePeriod
         (filter (fun event => duration event >=? 50) (processor (traceOfTab data))))
      (networkRecords data) (traceOfTab data) = Ok info /\
    timestamp m =
      Math_max (start (cpuQuietPeriod info)) (fmp / 1000) (dcl / 1000) * 1000 /\
    timing m = (timestamp m - navigationStart (timestamps (traceOfTab data))) / 1000.
Proof.
  intro E. apply computeObservedMetric_ok in E.
  destruct E as [fmp [dcl [info [Ef [Ed [_ [_ [Eo ->]]]]]]]].
  exists fmp, dcl, info. repeat split; assumption.
Qed.

(** C5, as the code has it.  When the first meaningful paint is missing or
    zero the computation throws [NO_FMP]; when the first meaningful paint
    is present and not zero and the DOM content loaded instant is missing
    or zero it throws [NO_DCL].  Both hold whatever the tracing processor,
    the network recorder and the overlap matcher would yield. *)
Theorem missing_paint_errors (data : MetricComputationData NetworkRequest Events) :
  (missing_or_zero (firstMeaningfulPaint (timestamps (traceOfTab data))) ->
   computeObservedMetric recorder processor data = Throw (LHError NO_FMP)) /\
  (~ missing_or_zero (firstMeaningfulPaint (timestamps (traceOfTab data))) ->
   missing_or_zero (domContentLoaded (timestamps (traceOfTab data))) ->
   computeObservedMetric recorder processor data = Throw (LHError NO_DCL)).
Proof.
  unfold computeObservedMetric, missing_or_zero. cbv zeta.
  destruct (firstMeaningfulPaint _) as [fmp|].
  - destruct (Qeq_bool fmp 0) eqn:Ef.
    + split; [reflexivity|]. intros Hno _. exfalso. apply Hno. right.
      exists fmp. split; [reflexivity|]. apply Qeq_bool_iff. exact Ef.
    + split.
      * intros [H|[q [H H0]]]; [discriminate|]. injection H as <-.
        apply Qeq_bool_iff in H0. congruence.
      * intros _ Hd. destruct (domContentLoaded _) as [dcl|]; [|reflexivity].
        destruct Hd as [H|[q [H H0]]]; [discriminate|]. injection H as <-.
        apply Qeq_bool_iff in H0. rewrite H0. reflexivity.
  - split; [reflexivity|]. intros Hno _. exfalso. apply Hno. left. reflexivity.
Qed.


End Computation.

(** ** The matched window, in binary64 *)

Lemma double_while_loop_step (cpu net : Double.TimePeriod)
    (cpuQ netQ : list Double.TimePeriod) :
  Double.while_loop (Double.mkState (Some cpu) cpuQ (Some net) netQ) =
  if Double.geb (Double.start cpu) (Double.start net)
  then if Double.geb (Double.end_ net)
                     (Double.start cpu + Double.REQUIRED_QUIET_WINDOW)%float
       then inl (cpu, net)
       else Double.while_loop
              (Double.mkState (Some cpu) cpuQ
                 (fst (Double.shift netQ)) (snd (Double.shift netQ)))
  else if Double.geb (Double.end_ cpu)
                     (Double.start net + Double.REQUIRED_QUIET_WINDOW)%float
       then inl (cpu, net)
       else Double.while_loop
              (Double.mkState (fst (Double.shift cpuQ)) (snd (Double.shift cpuQ))
                 (Some net) netQ).
Proof.
  rewrite Double.while_loop_equation_1.
  destruct (Double.geb (Double.start cpu) (Double.start net)); simpl.
  - destruct (Double.geb (Double.end_ net) _); reflexivity.
  - destruct (Double.geb (Double.end_ cpu) _); reflexivity.
Qed.

Lemma double_pending_shift (queue : list Double.TimePeriod) :
  Double.pending (fst (Double.shift queue)) (snd (Double.shift queue)) = queue.
Proof. destruct queue; reflexivity. Qed.

(** A pair returned from inside the loop is made of a pending CPU period
    and a pending network period that passed the loop's test. *)
Lemma double_while_loop_result (n : nat) :
  forall st : Double.LoopState,
    (Double.iterations_left st <= n)%nat ->
    match Double.while_loop st with
    | inl (cpu, net) =>
        In cpu (Double.pending (Double.cpuCandidate st) (Double.cpuQueue st)) /\
        In net (Double.pending (Double.networkCandidate st) (Double.networkQueue st)) /\
        Double.loop_test cpu net = true
    | inr _ => True
    end.
Proof.
  induction n as [|n IH]; intros [[cpu|] cpuQ [net|] netQ];
    unfold Double.iterations_left; simpl; intros Hn; try lia;
    try (destruct (Double.while_loop _) as [[c m]|st'] eqn:E; [|exact I];
         rewrite Double.while_loop_equation_2 in E
         || rewrite Double.while_loop_equation_3 in E; discriminate).
  rewrite double_while_loop_step. unfold Double.loop_test.
  destruct (Double.geb (Double.start cpu) (Double.start net)) eqn:Hstart.
  - destruct (Double.geb (Double.end_ net) _) eqn:Htest.
    + rewrite Hstart. split; [left; reflexivity|].
      split; [left; reflexivity|exact Htest].
    + specialize (IH (Double.mkState (Some cpu) cpuQ
                        (fst (Double.shift netQ)) (snd (Double.shift netQ)))).
      simpl in IH. rewrite double_pending_shift in IH.
      assert (Hm : (Double.iterations_left
                (Double.mkState (Some cpu) cpuQ
                   (fst (Double.shift netQ)) (snd (Double.shift netQ))) <= n)%nat).
      { unfold Double.iterations_left. destruct netQ; simpl in *; lia. }
      specialize (IH Hm).
      destruct (Double.while_loop _) as [[c m]|st']; [|exact I].
      destruct IH as [Hc [Hnet Ht]].
      split; [exact Hc|split; [right; exact Hnet|exact Ht]].
  - destruct (Double.geb (Double.end_ cpu) _) eqn:Htest.
    + rewrite Hstart. split; [left; reflexivity|].
      split; [left; reflexivity|exact Htest].
    + specialize (IH (Double.mkState (fst (Double.shift cpuQ))
                        (snd (Double.shift cpuQ)) (Some net) netQ)).
      simpl in IH. rewrite double_pending_shift in IH.
      assert (Hm : (Double.iterations_left
                (Double.mkState (fst (Double.shift cpuQ))
                   (snd (Double.shift cpuQ)) (Some net) netQ) <= n)%nat).
      { unfold Double.iterations_left. destruct cpuQ; simpl in *; lia. }
      specialize (IH Hm).
      destruct (Double.while_loop _) as [[c m]|st']; [|exact I].
      destruct IH as [Hc [Hnet Ht]].
      split; [right; exact Hc|split; [exact Hnet|exact Ht]].
Qed.

(** C9, as the code has it.  When [findOverlappingQuietPeriods] returns,
    the two returned periods are members of the two returned lists, both
    passed the filter, so that [end - start >= 5000] as the code computes
    the difference, and the loop's test held: if
    [cpu.start >= net.start] then [net.end >= cpu.start + 5000], else
    [cpu.end >= net.start + 5000], as the code computes the sum.  The
    period that starts first holds the 5000 ms from the later start up to
    the rounding of that sum, and the other one up to the rounding of that
    difference. *)
Theorem matched_window_tests {NetworkRequest Events : Type}
    (recorder : list NetworkRequest -> float -> float -> list Double.TimePeriod)
    (longTasks : list Double.TimePeriod) (records : list NetworkRequest)
    (tot : Double.TraceOfTab Events) (info : Double.QuietPeriodInfo) :
  Double.findOverlappingQuietPeriods recorder longTasks records tot = Ok info ->
  let cpu := Double.cpuQuietPeriod info in
  let net := Double.networkQuietPeriod info in
  In cpu (Double.cpuQuietPeriods info) /\
  In net (Double.networkQuietPeriods info) /\
  Double.geb (Double.end_ cpu - Double.start cpu)%float 5000%float = true /\
  Double.geb (Double.end_ net - Double.start net)%float 5000%float = true /\
  (if Double.geb (Double.start cpu) (Double.start net)
   then Double.geb (Double.end_ net) (Double.start cpu + 5000)%float
   else Double.geb (Double.end_ cpu) (Double.start net + 5000)%float) = true.
Proof.
  unfold Double.findOverlappingQuietPeriods. cbv zeta.
  destruct (Double._findCPUQuietPeriods longTasks tot) as [all|e];
    cbn [bind]; [|discriminate].
  unfold Double.findOverlappingQuietPeriods_search. cbv zeta.
  set (cpus := filter _ all). set (nets := filter _ _).
  pose proof (double_while_loop_result _ _ (Nat.le_refl
    (Double.iterations_left
       (Double.mkState (fst (Double.shift cpus)) (snd (Double.shift cpus))
                       (fst (Double.shift nets)) (snd (Double.shift nets)))))) as R.
  simpl in R. rewrite !double_pending_shift in R.
  destruct (Double.while_loop _) as [[c m]|st']; [|discriminate].
  intro E. injection E as <-. cbn [Double.cpuQuietPeriod Double.networkQuietPeriod
    Double.cpuQuietPeriods Double.networkQuietPeriods].
  destruct R as [Hc [Hn Ht]].
  split; [exact Hc|]. split; [exact Hn|].
  unfold cpus in Hc. unfold nets in Hn.
  apply filter_In in Hc. apply filter_In in Hn.
  destruct Hc as [_ Hc]. destruct Hn as [_ Hn].
  unfold Double.isLongEnoughQuietPeriod in Hc, Hn.
  apply andb_true_iff in Hc. apply andb_true_iff in Hn.
  split; [exact (proj2 Hc)|]. split; [exact (proj2 Hn)|exact Ht].
Qed.

Lemma matched_window_tests_witness :
  exists info,
    Double.findOverlappingQuietPeriods Double.recorder_stub Double.rounded_gap_tasks
      [Double.mkPeriod 0 30000] Double.rounded_gap_trace = Ok info /\
    let cpu := Double.cpuQuietPeriod info in
    let net := Double.networkQuietPeriod info in
    In cpu (Double.cpuQuietPeriods info) /\
    In net (Double.networkQuietPeriods info) /\
    Double.geb (Double.end_ cpu - Double.start cpu)%float 5000%float = true /\
    Double.geb (Double.end_ net - Double.start net)%float 5000%float = true /\
    (if Double.geb (Double.start cpu) (Double.start net)
     then Double.geb (Double.end_ net) (Double.start cpu + 5000)%float
     else Double.geb (Double.end_ cpu) (Double.start net + 5000)%float) = true.
Proof.
  eexists. split; [vm_compute; reflexivity|].
  apply (matched_window_tests Double.recorder_stub Double.rounded_gap_tasks
           [Double.mkPeriod 0 30000] Double.rounded_gap_trace).
  vm_compute. reflexivity.
Defined.

(** C9, as stated, fails in binary64.  Navigation starts at 1000003 us and
    two long tasks lie exactly 5000 ms apart.  The gap between them is
    derived as [[2100.0030000000002, 7100.0029999999997]]: its computed
    length is 5000, so the filter keeps it, and it is returned with the
    network period [[0, 30000]].  The later start is its own,
    [s = 2100.0030000000002], and [s + 5000 <= end] is false: the window
    from the later start is not contained in the returned CPU quiet period.
    The sum is the rounding of the exact sum and the end is a double, so
    the exact sum exceeds the end as well. *)
Lemma matched_window_not_inside :
  exists info,
    Double.findOverlappingQuietPeriods Double.recorder_stub Double.rounded_gap_tasks
      [Double.mkPeriod 0 30000] Double.rounded_gap_trace = Ok info /\
    let cpu := Double.cpuQuietPeriod info in
    let net := Double.networkQuietPeriod info in
    let s := Double.later_start cpu net in
    PrimFloat.eqb s (Double.start cpu) = true /\
    Double.geb (Double.end_ cpu) (s + 5000)%float = false /\
    Double.geb (Double.end_ cpu - Double.start cpu)%float 5000%float = true.
Proof.
  eexists. split; [vm_compute; reflexivity|].
  repeat split; vm_compute; reflexivity.
Qed.

(** ** The claims on sample traces *)

Lemma no_cpu_candidate_error_witness :
  findOverlappingQuietPeriods recorder_stub [] [mkPeriod 0 30000] short_trace =
  Throw (LHError NO_TTI_CPU_IDLE_PERIOD).
Proof.
  apply (proj1 (no_cpu_candidate_error TimePeriod (list TopLevelEvent) recorder_stub
                  [] [mkPeriod 0 30000] short_trace)
               [mkPeriod 0 (10000 / 1000)]).
  - reflexivity.
  - vm_compute. reflexivity.
Defined.

Lemma metric_assembly_witness :
  exists m,
    computeObservedMetric recorder_stub processor_stub sample_data = Ok m /\
    exists fmp dcl info,
      firstMeaningfulPaint sample_timestamps = Some fmp /\
      domContentLoaded sample_timestamps = Some dcl /\
      findOverlappingQuietPeriods recorder_stub
        (map asTimePeriod
           (filter (fun event => duration event >=? 50) (processor_stub sample_trace)))
        [mkPeriod 0 30000] sample_trace = Ok info /\
      timestamp m =
        Math_max (start (cpuQuietPeriod info)) (fmp / 1000) (dcl / 1000) * 1000 /\
      timing m = (timestamp m - 1000000) / 1000.
Proof.
  eexists. split; [vm_compute; reflexivity|].
  apply (metric_assembly TimePeriod (list TopLevelEvent) recorder_stub
           processor_stub sample_data).
  vm_compute. reflexivity.
Defined.

(** C3, as the specification states it, fails: for the sample trace the
    matched CPU quiet period starts at 6100 ms, and the returned
    [timestamp] is 6100000, the instant in microseconds; it is neither
    [max(cpuQuietPeriod.start, FMP, DCL)] with the paints in milliseconds
    (6100) nor with the paints as given (4000000), and the returned
    [timing], 5100, is not [timestamp - navigationStart] for the returned
    [timestamp]. *)
Lemma metric_timestamp_not_milliseconds :
  exists info m,
    findOverlappingQuietPeriods recorder_stub [mkPeriod 5000 5100]
      [mkPeriod 0 30000] sample_trace = Ok info /\
    computeObservedMetric recorder_stub processor_stub sample_data = Ok m /\
    ~ timestamp m ==
        Math_max (start (cpuQuietPeriod info)) (3000000 / 1000) (4000000 / 1000) /\
    ~ timestamp m == Math_max (start (cpuQuietPeriod info)) 3000000 4000000 /\
    ~ timing m == timestamp m - 1000000 /\
    ~ timing m == timestamp m - 1000000 / 1000.
Proof.
  eexists. eexists. split; [vm_compute; reflexivity|].
  split; [vm_compute; reflexivity|].
  repeat split; intro H; vm_compute in H; discriminate.
Qed.

Lemma missing_paint_errors_witness :
  computeObservedMetric recorder_stub processor_stub unpainted_data =
    Throw (LHError NO_FMP) /\
  computeObservedMetric recorder_stub processor_stub unloaded_data =
    Throw (LHError NO_DCL).
Proof.
  split.
  - apply (proj1 (missing_paint_errors TimePeriod (list TopLevelEvent)
                    recorder_stub processor_stub unpainted_data)).
    left. reflexivity.
  - apply (proj2 (missing_paint_errors TimePeriod (list TopLevelEvent)
                    recorder_stub processor_stub unloaded_data)).
    + intros [H|[q [H H0]]]; [discriminate|]. injection H as <-.
      vm_compute in H0. discriminate.
    + left. reflexivity.
Defined.

(** C5, as the specification states it, fails: with both instants missing,
    the DOM content loaded instant is missing and the error thrown is
    [NO_FMP], not [NO_DCL]. *)
Lemma missing_dcl_not_always_no_dcl :
  missing_or_zero (domContentLoaded (timestamps (traceOfTab unpainted_data))) /\
  computeObservedMetric recorder_stub processor_stub unpainted_data =
    Throw (LHError NO_FMP) /\
  computeObservedMetric recorder_stub processor_stub unpainted_data <>
    Throw (LHError NO_DCL).
Proof.
  split; [left; reflexivity|]. split; [reflexivity|].
  intro H. vm_compute in H. discriminate.
Qed.



(* ===================================================================== *)
(** * Further properties of the computation *)
(* ===================================================================== *)

(** ** Which error, and when *)

Lemma search_no_cpu (nets : list TimePeriod) :
  findOverlappingQuietPeriods_search [] nets =
  Throw (LHError NO_TTI_CPU_IDLE_PERIOD).
Proof.
  unfold findOverlappingQuietPeriods_search. cbv zeta.
  rewrite while_loop_exit by (left; reflexivity). reflexivity.
Qed.

Lemma search_no_network (cpus : list TimePeriod) :
  cpus <> [] ->
  findOverlappingQuietPeriods_search cpus [] =
  Throw (LHError NO_TTI_NETWORK_IDLE_PERIOD).
Proof.
  destruct cpus as [|cpu cpuQ]; [congruence|]. intros _.
  unfold findOverlappingQuietPeriods_search. cbv zeta.
  rewrite while_loop_exit by (right; reflexivity). reflexivity.
Qed.

Lemma search_throw_kinds (cpus nets : list TimePeriod) (e : exn) :
  findOverlappingQuietPeriods_search cpus nets = Throw e ->
  e = LHError NO_TTI_NETWORK_IDLE_PERIOD \/ e = LHError NO_TTI_CPU_IDLE_PERIOD.
Proof.
  unfold findOverlappingQuietPeriods_search. cbv zeta.
  destruct (while_loop _) as [[c m]|st]; [discriminate|].
  intro E. injection E as <-. destruct (cpuCandidate st); auto.
Qed.

Lemma filter_without_paint (periods : list TimePeriod) :
  filter (isLongEnoughQuietPeriod None) periods = [].
Proof. induction periods as [|p l IH]; simpl; [reflexivity|exact IH]. Qed.

Lemma filter_ascending (f : TimePeriod -> bool) (l : list TimePeriod) :
  ascending l -> ascending (filter f l).
Proof.
  intro H. apply ascending_strong in H. apply StronglySorted_Sorted.
  induction H as [|p l Hl IH Hall]; simpl; [constructor|].
  destruct (f p); [|exact IH]. constructor; [exact IH|].
  rewrite Forall_forall in *. intros q Hq. apply filter_In in Hq.
  apply Hall. exact (proj1 Hq).
Qed.

(** Where the boundaries of the derived periods come from. *)
Lemma gaps_after_bounds (nav T : Q) (rest : list TimePeriod) :
  forall task p,
    In p (gaps_after nav T task rest) ->
    (exists u, In u (task :: rest) /\ start p = end_ u + nav) /\
    (end_ p = T \/ exists u, In u rest /\ end_ p = start u + nav).
Proof.
  induction rest as [|next rest IH]; intros task p Hp.
  - destruct Hp as [<-|[]]. simpl. split; [|left; reflexivity].
    exists task. split; [left; reflexivity|reflexivity].
  - destruct Hp as [<-|Hp].
    + simpl. split.
      * exists task. split; [left; reflexivity|reflexivity].
      * right. exists next. split; [left; reflexivity|reflexivity].
    + destruct (IH next p Hp) as [[u [Hu Es]] He]. split.
      * exists u. split; [right; exact Hu|exact Es].
      * destruct He as [He|[v [Hv He]]]; [left; exact He|].
        right. exists v. split; [right; exact Hv|exact He].
Qed.

Lemma cpu_gaps_bounds (nav T : Q) (longTasks : list TimePeriod) (p : TimePeriod) :
  In p (cpu_gaps nav T longTasks) ->
  (start p = 0 \/ exists u, In u longTasks /\ start p = end_ u + nav) /\
  (end_ p = T \/ exists u, In u longTasks /\ end_ p = start u + nav).
Proof.
  destruct longTasks as [|first rest]; simpl.
  - intros [<-|[]]. simpl. split; left; reflexivity.
  - intros [<-|Hp].
    + simpl. split; [left; reflexivity|].
      right. exists first. split; [left; reflexivity|reflexivity].
    + destruct (gaps_after_bounds nav T rest first p Hp) as [[u [Hu Es]] He]. split.
      * right. exists u. split; [exact Hu|exact Es].
      * destruct He as [He|[v [Hv He]]]; [left; exact He|].
        right. exists v. split; [right; exact Hv|exact He].
Qed.

Section Further.

Variables NetworkRequest Events : Type.
Variable recorder : list NetworkRequest -> Q -> Q -> list TimePeriod.
Variable processor : TraceOfTab Events -> list TopLevelEvent.

(** What a successful [findOverlappingQuietPeriods] went through. *)
Lemma findOverlappingQuietPeriods_ok (longTasks : list TimePeriod)
    (records : list NetworkRequest) (tot : TraceOfTab Events)
    (info : QuietPeriodInfo) :
  findOverlappingQuietPeriods recorder longTasks records tot = Ok info ->
  exists fmp,
    firstMeaningfulPaint (timestamps tot) = Some fmp /\
    cpuQuietPeriods info =
      filter (isLongEnoughQuietPeriod (Some (fmp / 1000)))
        (cpu_gaps (navigationStart (timestamps tot) / 1000)
                  (traceEnd (timestamps tot) / 1000) longTasks) /\
    networkQuietPeriods info =
      filter (isLongEnoughQuietPeriod (Some (fmp / 1000)))
        (recorder records ALLOWED_CONCURRENT_REQUESTS
                  (traceEnd (timestamps tot) / 1000)) /\
    In (cpuQuietPeriod info) (cpuQuietPeriods info) /\
    In (networkQuietPeriod info) (networkQuietPeriods info) /\
    qualifies (cpuQuietPeriod info) (networkQuietPeriod info).
Proof.
  rewrite findOverlappingQuietPeriods_unfold. intro E.
  apply search_ok_members in E. destruct E as [Hc [Hn [Hq [Ec En]]]].
  unfold FMPTsInMs_of in *.
  destruct (firstMeaningfulPaint (timestamps tot)) as [fmp|].
  - exists fmp. simpl in *. rewrite Ec, En. repeat split; assumption.
  - simpl in Hc. rewrite filter_without_paint in Hc. destruct Hc.
Qed.

Lemma findOverlappingQuietPeriods_throw (longTasks : list TimePeriod)
    (records : list NetworkRequest) (tot : TraceOfTab Events) (e : exn) :
  findOverlappingQuietPeriods recorder longTasks records tot = Throw e ->
  e = LHError NO_TTI_NETWORK_IDLE_PERIOD \/ e = LHError NO_TTI_CPU_IDLE_PERIOD.
Proof.
  rewrite findOverlappingQuietPeriods_unfold. apply search_throw_kinds.
Qed.

(** X1.  [findOverlappingQuietPeriods] throws nothing but its two errors:
    reading [longTasks[index + 1]] never fails, and a failed search is
    [NO_TTI_NETWORK_IDLE_PERIOD] or [NO_TTI_CPU_IDLE_PERIOD]. *)
Theorem overlap_error_kinds (longTasks : list TimePeriod)
    (records : list NetworkRequest) (tot : TraceOfTab Events) (e : exn) :
  findOverlappingQuietPeriods recorder longTasks records tot = Throw e ->
  e = LHError NO_TTI_NETWORK_IDLE_PERIOD \/ e = LHError NO_TTI_CPU_IDLE_PERIOD.
Proof.
  intro E. destruct (findOverlappingQuietPeriods_throw _ _ _ _ E) as [->| ->];
    [left|right]; reflexivity.
Qed.

(** X2.  Every error of [computeObservedMetric] tells what happened:
    [NO_FMP] when the first meaningful paint is missing or zero; [NO_DCL]
    when that paint is there and the DOM content loaded instant is missing
    or zero; otherwise the error is the one [findOverlappingQuietPeriods]
    threw on the tasks of 50 ms or more, one of its two kinds. *)
Theorem metric_error_taxonomy (data : MetricComputationData NetworkRequest Events)
    (e : exn) :
  computeObservedMetric recorder processor data = Throw e ->
  (e = LHError NO_FMP /\
   missing_or_zero (firstMeaningfulPaint (timestamps (traceOfTab data)))) \/
  (e = LHError NO_DCL /\
   ~ missing_or_zero (firstMeaningfulPaint (timestamps (traceOfTab data))) /\
   missing_or_zero (domContentLoaded (timestamps (traceOfTab data)))) \/
  ((e = LHError NO_TTI_NETWORK_IDLE_PERIOD \/ e = LHError NO_TTI_CPU_IDLE_PERIOD) /\
   ~ missing_or_zero (firstMeaningfulPaint (timestamps (traceOfTab data))) /\
   ~ missing_or_zero (domContentLoaded (timestamps (traceOfTab data))) /\
   findOverlappingQuietPeriods recorder
     (map asTimePeriod
        (filter (fun event => duration event >=? 50) (processor (traceOfTab data))))
     (networkRecords data) (traceOfTab data) = Throw e).
Proof.
  unfold computeObservedMetric, missing_or_zero. cbv zeta.
  destruct (firstMeaningfulPaint _) as [fmp|].
  2:{ intro E. injection E as <-. left. split; [reflexivity|left; reflexivity]. }
  destruct (Qeq_bool fmp 0) eqn:Ef.
  { intro E. injection E as <-. left. split; [reflexivity|].
    right. exists fmp. split; [reflexivity|]. apply Qeq_bool_iff. exact Ef. }
  assert (Hf : ~ (Some fmp = None \/ exists q, Some fmp = Some q /\ q == 0)).
  { intros [H|[q [H H0]]]; [discriminate|]. injection H as <-.
    apply Qeq_bool_iff in H0. congruence. }
  destruct (domContentLoaded _) as [dcl|].
  2:{ intro E. injection E as <-. right. left.
      split; [reflexivity|]. split; [exact Hf|left; reflexivity]. }
  destruct (Qeq_bool dcl 0) eqn:Ed.
  { intro E. injection E as <-. right. left.
    split; [reflexivity|]. split; [exact Hf|].
    right. exists dcl. split; [reflexivity|]. apply Qeq_bool_iff. exact Ed. }
  assert (Hd : ~ (Some dcl = None \/ exists q, Some dcl = Some q /\ q == 0)).
  { intros [H|[q [H H0]]]; [discriminate|]. injection H as <-.
    apply Qeq_bool_iff in H0. congruence. }
  destruct (findOverlappingQuietPeriods _ _ _ _) as [info|e'] eqn:Eo;
    cbn [bind]; [discriminate|].
  intro E. injection E as <-. right. right.
  split; [exact (findOverlappingQuietPeriods_throw _ _ _ _ Eo)|].
  split; [exact Hf|]. split; [exact Hd|reflexivity].
Qed.

(** X3.  Called on a trace without a first meaningful paint,
    [findOverlappingQuietPeriods] throws [NO_TTI_CPU_IDLE_PERIOD] whatever
    the long tasks and network records are: [FMPTsInMs] is NaN and the
    filter rejects every period. *)
Theorem overlap_without_paint (longTasks : list TimePeriod)
    (records : list NetworkRequest) (tot : TraceOfTab Events) :
  firstMeaningfulPaint (timestamps tot) = None ->
  findOverlappingQuietPeriods recorder longTasks records tot =
  Throw (LHError NO_TTI_CPU_IDLE_PERIOD).
Proof.
  intro H. rewrite findOverlappingQuietPeriods_unfold.
  unfold FMPTsInMs_of. rewrite H. simpl.
  rewrite filter_without_paint. apply search_no_cpu.
Qed.

(** X4.  When some CPU quiet period passes the filter and no network quiet
    period does, [findOverlappingQuietPeriods] throws
    [NO_TTI_NETWORK_IDLE_PERIOD]. *)
Theorem no_network_candidate_error (longTasks : list TimePeriod)
    (records : list NetworkRequest) (tot : TraceOfTab Events)
    (cpuPeriods : list TimePeriod) :
  _findCPUQuietPeriods longTasks tot = Ok cpuPeriods ->
  filter (isLongEnoughQuietPeriod (FMPTsInMs_of tot)) cpuPeriods <> [] ->
  filter (isLongEnoughQuietPeriod (FMPTsInMs_of tot))
         (_findNetworkQuietPeriods recorder records tot) = [] ->
  findOverlappingQuietPeriods recorder longTasks records tot =
  Throw (LHError NO_TTI_NETWORK_IDLE_PERIOD).
Proof.
  intros E Hc Hn. unfold findOverlappingQuietPeriods. cbv zeta.
  rewrite E. cbn [bind]. rewrite Hn. apply search_no_network. exact Hc.
Qed.

Lemma matched_cpu_bounds (longTasks : list TimePeriod)
    (records : list NetworkRequest) (tot : TraceOfTab Events)
    (info : QuietPeriodInfo) :
  findOverlappingQuietPeriods recorder longTasks records tot = Ok info ->
  (start (cpuQuietPeriod info) = 0 \/
   exists task, In task longTasks /\
     start (cpuQuietPeriod info) =
     end_ task + navigationStart (timestamps tot) / 1000) /\
  (end_ (cpuQuietPeriod info) = traceEnd (timestamps tot) / 1000 \/
   exists task, In task longTasks /\
     end_ (cpuQuietPeriod info) =
     start task + navigationStart (timestamps tot) / 1000).
Proof.
  intro E. apply findOverlappingQuietPeriods_ok in E.
  destruct E as [fmp [_ [Ec [_ [Hc _]]]]].
  rewrite Ec in Hc. apply filter_In in Hc. destruct Hc as [Hc _].
  exact (cpu_gaps_bounds _ _ _ _ Hc).
Qed.

(** X5.  The CPU quiet period that [findOverlappingQuietPeriods] returns
    starts at 0 or at the end of a long task, and ends at the trace end or
    at the start of a long task, the task boundaries moved by
    [navigationStart / 1000]. *)
Theorem matched_cpu_period_boundaries (longTasks : list TimePeriod)
    (records : list NetworkRequest) (tot : TraceOfTab Events)
    (info : QuietPeriodInfo) :
  findOverlappingQuietPeriods recorder longTasks records tot = Ok info ->
  (start (cpuQuietPeriod info) = 0 \/
   exists task, In task longTasks /\
     start (cpuQuietPeriod info) =
     end_ task + navigationStart (timestamps tot) / 1000) /\
  (end_ (cpuQuietPeriod info) = traceEnd (timestamps tot) / 1000 \/
   exists task, In task longTasks /\
     end_ (cpuQuietPeriod info) =
     start task + navigationStart (timestamps tot) / 1000).
Proof.
  intro E. destruct (matched_cpu_bounds _ _ _ _ E) as [Hs He].
  split; [exact Hs|exact He].
Qed.


(** X7.  On long tasks that have [start <= end], that each end no later
    than the next one starts and that lie within the trace, and on network
    quiet periods that the recorder yields in ascending order, the two
    filtered lists are ascending, and [findOverlappingQuietPeriods] returns
    the earliest qualifying pair of the two filtered lists; it throws only
    when no pair of them qualifies. *)
Theorem overlap_earliest_of_filtered (longTasks : list TimePeriod)
    (records : list NetworkRequest) (tot : TraceOfTab Events) :
  Forall well_formed longTasks ->
  consecutive longTasks ->
  Forall (within_trace (navigationStart (timestamps tot) / 1000)
                       (traceEnd (timestamps tot) / 1000)) longTasks ->
  ascending (_findNetworkQuietPeriods recorder records tot) ->
  exists cpuPeriods,
    _findCPUQuietPeriods longTasks tot = Ok cpuPeriods /\
    let cpus := filter (isLongEnoughQuietPeriod (FMPTsInMs_of tot)) cpuPeriods in
    let nets := filter (isLongEnoughQuietPeriod (FMPTsInMs_of tot))
                       (_findNetworkQuietPeriods recorder records tot) in
    ascending cpus /\ ascending nets /\
    match findOverlappingQuietPeriods recorder longTasks records tot with
    | Ok info =>
        cpuQuietPeriods info = cpus /\ networkQuietPeriods info = nets /\
        earliest_pair cpus nets (cpuQuietPeriod info) (networkQuietPeriod info)
    | Throw _ => forall x y, In x cpus -> In y nets -> ~ qualifies x y
    end.
Proof.
  intros Hwf Hc Hin Hn. eexists. split; [apply findCPUQuietPeriods_gaps|].
  cbv zeta. rewrite findOverlappingQuietPeriods_unfold.
  pose proof (filter_ascending (isLongEnoughQuietPeriod (FMPTsInMs_of tot)) _
                (cpu_gaps_ascending _ _ _ Hwf Hc Hin)) as Ac.
  pose proof (filter_ascending (isLongEnoughQuietPeriod (FMPTsInMs_of tot)) _ Hn) as An.
  split; [exact Ac|]. split; [exact An|].
  pose proof (search_ascending _ _ Ac An) as S.
  destruct (findOverlappingQuietPeriods_search _ _) as [info|e] eqn:E.
  - apply search_ok_members in E. destruct E as [_ [_ [_ [Ec En]]]].
    split; [exact Ec|]. split; [exact En|exact S].
  - exact S.
Qed.

(** X8.  When [findOverlappingQuietPeriods] returns, the first meaningful
    paint is present, the two returned lists hold only periods of at least
    5000 ms that end later than 5000 ms after the first meaningful paint,
    and the returned CPU and network quiet periods are members of them. *)
Theorem returned_candidates_filtered (longTasks : list TimePeriod)
    (records : list NetworkRequest) (tot : TraceOfTab Events)
    (info : QuietPeriodInfo) :
  findOverlappingQuietPeriods recorder longTasks records tot = Ok info ->
  exists fmp,
    firstMeaningfulPaint (timestamps tot) = Some fmp /\
    In (cpuQuietPeriod info) (cpuQuietPeriods info) /\
    In (networkQuietPeriod info) (networkQuietPeriods info) /\
    (forall p,
       In p (cpuQuietPeriods info) \/ In p (networkQuietPeriods info) ->
       end_ p - start p >= 5000 /\ end_ p > fmp / 1000 + 5000) /\
    (forall p,
       In p (networkQuietPeriods info) <->
       In p (recorder records 2 (traceEnd (timestamps tot) / 1000)) /\
       end_ p - start p >= 5000 /\ end_ p > fmp / 1000 + 5000).
Proof.
  intro E. apply findOverlappingQuietPeriods_ok in E.
  destruct E as [fmp [Ef [Ec [En [Hc [Hn _]]]]]].
  exists fmp. split; [exact Ef|]. split; [exact Hc|]. split; [exact Hn|]. split.
  - intros p [Hp|Hp]; [rewrite Ec in Hp|rewrite En in Hp];
      apply filter_In in Hp; destruct Hp as [_ Hp];
      apply isLongEnoughQuietPeriod_spec in Hp; exact Hp.
  - intro p. rewrite En, filter_In, isLongEnoughQuietPeriod_spec. reflexivity.
Qed.

Lemma filter_short_events (events : list TopLevelEvent) :
  Forall (fun event => duration event < 50) events ->
  filter (fun event => duration event >=? 50) events = [].
Proof.
  induction 1 as [|event l Hshort _ IH]; simpl; [reflexivity|].
  apply Qgeb_lt in Hshort. rewrite Hshort. exact IH.
Qed.

(** X9.  A quiet page: when both paints are stamped after 0, every
    top-level event is shorter than 50 ms, the recorder reports the network
    quiet for the whole trace, and the trace end in milliseconds is later
    than [FMP / 1000 + 5000], the computation succeeds, and its timestamp
    is [max(FMP / 1000, DCL / 1000) * 1000], the later of the two paints
    taken to milliseconds and back. *)
Theorem quiet_page_metric (data : MetricComputationData NetworkRequest Events)
    (fmp dcl : Q) :
  firstMeaningfulPaint (timestamps (traceOfTab data)) = Some fmp ->
  domContentLoaded (timestamps (traceOfTab data)) = Some dcl ->
  0 < fmp -> 0 < dcl ->
  Forall (fun event => duration event < 50) (processor (traceOfTab data)) ->
  recorder (networkRecords data) 2 (traceEnd (timestamps (traceOfTab data)) / 1000) =
    [mkPeriod 0 (traceEnd (timestamps (traceOfTab data)) / 1000)] ->
  fmp / 1000 + 5000 < traceEnd (timestamps (traceOfTab data)) / 1000 ->
  exists m,
    computeObservedMetric recorder processor data = Ok m /\
    timestamp m == Qmax (fmp / 1000) (dcl / 1000) * 1000 /\
    timing m = (timestamp m - navigationStart (timestamps (traceOfTab data))) / 1000.
Proof.
  intros Ef Ed Hf Hd Hshort Hnet Hend.
  unfold computeObservedMetric. cbv zeta. rewrite Ef, Ed.
  assert (Zf : Qeq_bool fmp 0 = false).
  { destruct (Qeq_bool fmp 0) eqn:Z; [|reflexivity].
    apply Qeq_bool_iff in Z. lra. }
  assert (Zd : Qeq_bool dcl 0 = false).
  { destruct (Qeq_bool dcl 0) eqn:Z; [|reflexivity].
    apply Qeq_bool_iff in Z. lra. }
  rewrite Zf, Zd, (filter_short_events _ Hshort).
  cbn [map]. rewrite findOverlappingQuietPeriods_unfold.
  unfold FMPTsInMs_of, _findNetworkQuietPeriods, ALLOWED_CONCURRENT_REQUESTS.
  rewrite Ef, Hnet. cbn [option_map cpu_gaps].
  pose proof (Qdiv_1000 fmp) as Qf. pose proof (Qdiv_1000 dcl) as Qd.
  set (T := traceEnd (timestamps (traceOfTab data)) / 1000) in *.
  set (a := fmp / 1000) in *. set (b := dcl / 1000) in *.
  assert (Hlong : isLongEnoughQuietPeriod (Some a) (mkPeriod 0 T) = true).
  { apply isLongEnoughQuietPeriod_spec. cbn [start end_]. lra. }
  cbn [filter]. rewrite Hlong.
  unfold findOverlappingQuietPeriods_search. cbv zeta. cbn [shift fst snd].
  rewrite while_loop_step. cbn [start end_].
  assert (H0 : (0 >=? 0) = true) by reflexivity. rewrite H0.
  assert (HT : (T >=? 0 + REQUIRED_QUIET_WINDOW) = true).
  { apply Qgeb_ge. unfold REQUIRED_QUIET_WINDOW. lra. }
  rewrite HT. cbn [bind cpuQuietPeriod start].
  eexists. split; [reflexivity|]. cbn [timestamp timing].
  split; [|reflexivity]. unfold Math_max.
  destruct (Q.max_spec 0 a) as [[H1 E1]|[H1 E1]];
  destruct (Q.max_spec (Qmax 0 a) b) as [[H2 E2]|[H2 E2]];
  destruct (Q.max_spec a b) as [[H3 E3]|[H3 E3]];
  rewrite E2, E3; lra.
Qed.

End Further.

(** ** The further properties on sample traces *)

Lemma overlap_error_kinds_witness :
  findOverlappingQuietPeriods recorder_stub
    [mkPeriod 1000 1100; mkPeriod 5000 5100; mkPeriod 9000 9100] [] sample_trace =
    Throw (LHError NO_TTI_NETWORK_IDLE_PERIOD) /\
  (LHError NO_TTI_NETWORK_IDLE_PERIOD = LHError NO_TTI_NETWORK_IDLE_PERIOD \/
   LHError NO_TTI_NETWORK_IDLE_PERIOD = LHError NO_TTI_CPU_IDLE_PERIOD).
Proof.
  split; [vm_compute; reflexivity|].
  apply (overlap_error_kinds TimePeriod (list TopLevelEvent) recorder_stub
           [mkPeriod 1000 1100; mkPeriod 5000 5100; mkPeriod 9000 9100] []
           sample_trace).
  vm_compute. reflexivity.
Defined.

Lemma metric_error_taxonomy_witness :
  (LHError NO_DCL = LHError NO_FMP /\
   missing_or_zero (firstMeaningfulPaint (timestamps (traceOfTab unloaded_data)))) \/
  (LHError NO_DCL = LHError NO_DCL /\
   ~ missing_or_zero (firstMeaningfulPaint (timestamps (traceOfTab unloaded_data))) /\
   missing_or_zero (domContentLoaded (timestamps (traceOfTab unloaded_data)))) \/
  ((LHError NO_DCL = LHError NO_TTI_NETWORK_IDLE_PERIOD \/
    LHError NO_DCL = LHError NO_TTI_CPU_IDLE_PERIOD) /\
   ~ missing_or_zero (firstMeaningfulPaint (timestamps (traceOfTab unloaded_data))) /\
   ~ missing_or_zero (domContentLoaded (timestamps (traceOfTab unloaded_data))) /\
   findOverlappingQuietPeriods recorder_stub
     (map asTimePeriod
        (filter (fun event => duration event >=? 50)
                (processor_stub (traceOfTab unloaded_data))))
     (networkRecords unloaded_data) (traceOfTab unloaded_data) =
   Throw (LHError NO_DCL)).
Proof.
  apply (metric_error_taxonomy TimePeriod (list TopLevelEvent) recorder_stub
           processor_stub unloaded_data).
  vm_compute. reflexivity.
Defined.

Lemma overlap_without_paint_witness :
  findOverlappingQuietPeriods recorder_stub [mkPeriod 5000 5100]
    [mkPeriod 0 30000] (traceOfTab unpainted_data) =
  Throw (LHError NO_TTI_CPU_IDLE_PERIOD).
Proof.
  apply (overlap_without_paint TimePeriod (list TopLevelEvent) recorder_stub).
  reflexivity.
Defined.

Lemma no_network_candidate_error_witness :
  findOverlappingQuietPeriods recorder_stub [mkPeriod 5000 5100] [] sample_trace =
  Throw (LHError NO_TTI_NETWORK_IDLE_PERIOD).
Proof.
  apply (no_network_candidate_error TimePeriod (list TopLevelEvent) recorder_stub
           [mkPeriod 5000 5100] [] sample_trace
           [mkPeriod 0 (5000 + 1000000 / 1000);
            mkPeriod (5100 + 1000000 / 1000) (30000000 / 1000)]).
  - vm_compute. reflexivity.
  - intro H. vm_compute in H. discriminate.
  - reflexivity.
Defined.

Lemma matched_cpu_period_boundaries_witness :
  exists info,
    findOverlappingQuietPeriods recorder_stub [mkPeriod 5000 5100]
      [mkPeriod 0 30000] sample_trace = Ok info /\
    (start (cpuQuietPeriod info) = 0 \/
     exists task, In task [mkPeriod 5000 5100] /\
       start (cpuQuietPeriod info) = end_ task + 1000000 / 1000) /\
    (end_ (cpuQuietPeriod info) = 30000000 / 1000 \/
     exists task, In task [mkPeriod 5000 5100] /\
       end_ (cpuQuietPeriod info) = start task + 1000000 / 1000).
Proof.
  eexists. split; [vm_compute; reflexivity|].
  apply (matched_cpu_period_boundaries TimePeriod (list TopLevelEvent) recorder_stub
           [mkPeriod 5000 5100] [mkPeriod 0 30000] sample_trace).
  vm_compute. reflexivity.
Defined.


Lemma overlap_earliest_of_filtered_witness :
  exists cpuPeriods,
    _findCPUQuietPeriods [mkPeriod 5000 5100] sample_trace = Ok cpuPeriods /\
    let cpus := filter (isLongEnoughQuietPeriod (FMPTsInMs_of sample_trace)) cpuPeriods in
    let nets := filter (isLongEnoughQuietPeriod (FMPTsInMs_of sample_trace))
                       (_findNetworkQuietPeriods recorder_stub [mkPeriod 0 30000]
                                                 sample_trace) in
    ascending cpus /\ ascending nets /\
    match findOverlappingQuietPeriods recorder_stub [mkPeriod 5000 5100]
            [mkPeriod 0 30000] sample_trace with
    | Ok info =>
        cpuQuietPeriods info = cpus /\ networkQuietPeriods info = nets /\
        earliest_pair cpus nets (cpuQuietPeriod info) (networkQuietPeriod info)
    | Throw _ => forall x y, In x cpus -> In y nets -> ~ qualifies x y
    end.
Proof.
  apply (overlap_earliest_of_filtered TimePeriod (list TopLevelEvent) recorder_stub
           [mkPeriod 5000 5100] [mkPeriod 0 30000] sample_trace).
  - repeat constructor. unfold well_formed. simpl. lra.
  - repeat constructor.
  - repeat constructor; simpl; rewrite !Qdiv_1000; lra.
  - repeat constructor.
Defined.

Lemma returned_candidates_filtered_witness :
  exists info,
    findOverlappingQuietPeriods recorder_stub [mkPeriod 5000 5100]
      [mkPeriod 0 30000] sample_trace = Ok info /\
    exists fmp,
      firstMeaningfulPaint sample_timestamps = Some fmp /\
      In (cpuQuietPeriod info) (cpuQuietPeriods info) /\
      In (networkQuietPeriod info) (networkQuietPeriods info) /\
      (forall p,
         In p (cpuQuietPeriods info) \/ In p (networkQuietPeriods info) ->
         end_ p - start p >= 5000 /\ end_ p > fmp / 1000 + 5000) /\
      (forall p,
         In p (networkQuietPeriods info) <->
         In p (recorder_stub [mkPeriod 0 30000] 2 (30000000 / 1000)) /\
         end_ p - start p >= 5000 /\ end_ p > fmp / 1000 + 5000).
Proof.
  eexists. split; [vm_compute; reflexivity|].
  apply (returned_candidates_filtered TimePeriod (list TopLevelEvent) recorder_stub
           [mkPeriod 5000 5100] [mkPeriod 0 30000] sample_trace).
  vm_compute. reflexivity.
Defined.

Lemma quiet_page_metric_witness :
  exists m,
    computeObservedMetric recorder_stub processor_stub
      (mkData (mkTraceOfTab sample_timestamps []) [mkPeriod 0 (30000000 / 1000)])
    = Ok m /\
    timestamp m == Qmax (3000000 / 1000) (4000000 / 1000) * 1000 /\
    timing m = (timestamp m - 1000000) / 1000.
Proof.
  apply (quiet_page_metric TimePeriod (list TopLevelEvent) recorder_stub
           processor_stub
           (mkData (mkTraceOfTab sample_timestamps []) [mkPeriod 0 (30000000 / 1000)])
           3000000 4000000).
  - reflexivity.
  - reflexivity.
  - lra.
  - lra.
  - constructor.
  - reflexivity.
  - simpl. rewrite !Qdiv_1000. lra.
Defined.
